(** * github-mcp: the call-tool dispatcher of [src/index.ts]

    A shallow embedding of the request-validation-and-dispatch layer of the
    server: the [GitHubActionSchema] validator, the three tool handlers
    ([handleRepoAction], [handlePRAction], [handleIssueAction]) and the
    call-tool request handler installed by [setupHandlers].

    The remote API client is an external collaborator.  It is modelled as a
    stateful oracle: every endpoint maps the remote state to a reply (data or
    a raised exception) and a new remote state.  Each outbound call is
    recorded, with its outcome, in a log carried next to the remote state, so
    that statements about "which calls were made" are statements about that
    log. *)

From Stdlib Require Import String Ascii List ZArith Bool Lia DecimalString.
Import ListNotations.
Local Open Scope list_scope.
Local Open Scope string_scope.
Set Warnings "-register-all".

(* ------------------------------------------------------------------ *)
(** ** Values exchanged with the host and with the remote API *)

(** JSON data as it crosses the protocol boundary.  Numbers are the integral
    ones (counts, identifiers); an object is the ordered list of its own
    properties, each key occurring once. *)
Inductive json : Type :=
| JNull
| JBool (b : bool)
| JNum (n : Z)
| JStr (s : string)
| JArr (items : list json)
| JObj (fields : list (string * json)).

(** Property read [o[k]]; [None] is JavaScript's [undefined]. *)
Fixpoint prop (k : string) (fields : list (string * json)) : option json :=
  match fields with
  | [] => None
  | (k', v) :: rest => if String.eqb k k' then Some v else prop k rest
  end.

(* ------------------------------------------------------------------ *)
(** ** String primitives used by the handlers *)

Definition slash : ascii := "/"%char.

(** [s.includes(c)] for a one-character needle. *)
Fixpoint includes (c : ascii) (s : string) : bool :=
  match s with
  | EmptyString => false
  | String a rest => if Ascii.eqb a c then true else includes c rest
  end.

(** [s.split(c)] for a one-character separator: the segments between
    consecutive separators, empty segments kept.  The separator used by the
    program is ASCII, so cutting the byte string and cutting the UTF-16 string
    agree. *)
Fixpoint split (c : ascii) (s : string) : list string :=
  match s with
  | EmptyString => [EmptyString]
  | String a rest =>
      if Ascii.eqb a c then EmptyString :: split c rest
      else match split c rest with
           | seg :: segs => String a seg :: segs
           | [] => [String a EmptyString]
           end
  end.

(** Number of occurrences of a character. *)
Fixpoint occurrences (c : ascii) (s : string) : nat :=
  match s with
  | EmptyString => 0
  | String a rest => (if Ascii.eqb a c then 1 else 0) + occurrences c rest
  end.

(** [hay] contains [needle] as a contiguous piece. *)
Definition contains (hay needle : string) : Prop :=
  exists before after, hay = before ++ needle ++ after.

(** Truthiness of an optional boolean: [undefined] and [false] are falsy. *)
Definition truthy_bool (b : option bool) : bool :=
  match b with
  | Some true => true
  | _ => false
  end.

(* ------------------------------------------------------------------ *)
(** ** [JSON.stringify (v, null, 2)] *)

Definition hex_digit (n : N) : ascii :=
  match n with
  | 0 => "0" | 1 => "1" | 2 => "2" | 3 => "3" | 4 => "4" | 5 => "5"
  | 6 => "6" | 7 => "7" | 8 => "8" | 9 => "9" | 10 => "a" | 11 => "b"
  | 12 => "c" | 13 => "d" | 14 => "e" | _ => "f"
  end%N%char.

Definition backslash : ascii := ascii_of_N 92.
Definition dquote : ascii := ascii_of_N 34.
Definition newline : string := String (ascii_of_N 10) EmptyString.

Definition escape_char (a : ascii) : string :=
  let n := N_of_ascii a in
  let esc c := String backslash (String c EmptyString) in
  if (n =? 34)%N then esc dquote
  else if (n =? 92)%N then esc backslash
  else if (n =? 8)%N then esc "b"%char
  else if (n =? 12)%N then esc "f"%char
  else if (n =? 10)%N then esc "n"%char
  else if (n =? 13)%N then esc "r"%char
  else if (n =? 9)%N then esc "t"%char
  else if (n <? 32)%N then
    String backslash
      (String "u" (String "0" (String "0"
        (String (hex_digit (n / 16)) (String (hex_digit (n mod 16)) EmptyString)))))
  else String a EmptyString.

Fixpoint escape (s : string) : string :=
  match s with
  | EmptyString => EmptyString
  | String a rest => escape_char a ++ escape rest
  end.

Definition quote (s : string) : string :=
  String dquote (escape s ++ String dquote EmptyString).

Fixpoint join (sep : string) (parts : list string) : string :=
  match parts with
  | [] => EmptyString
  | [p] => p
  | p :: rest => p ++ sep ++ join sep rest
  end.

Definition decimal (n : Z) : string := NilZero.string_of_int (Z.to_int n).

(** Serialisation with a two-space gap; [ind] is the current indentation. *)
Fixpoint stringify_at (ind : string) (v : json) : string :=
  let deeper := ind ++ "  " in
  let sep := "," ++ newline ++ deeper in
  match v with
  | JNull => "null"
  | JBool true => "true"
  | JBool false => "false"
  | JNum n => decimal n
  | JStr s => quote s
  | JArr [] => "[]"
  | JArr items =>
      "[" ++ newline ++ deeper
          ++ join sep (map (stringify_at deeper) items)
          ++ newline ++ ind ++ "]"
  | JObj [] => "{}"
  | JObj fields =>
      "{" ++ newline ++ deeper
          ++ join sep (map (fun kv => match kv with
                                      | (k, x) => quote k ++ ": " ++ stringify_at deeper x
                                      end) fields)
          ++ newline ++ ind ++ "}"
  end.

Definition JSON_stringify (v : json) : string := stringify_at EmptyString v.

(** An object literal whose property values may be [undefined]: such
    properties are left out by the serialiser. *)
Fixpoint defined_props (props : list (string * option json)) : list (string * json) :=
  match props with
  | [] => []
  | (k, Some v) :: rest => (k, v) :: defined_props rest
  | (_, None) :: rest => defined_props rest
  end.

Definition object_literal (props : list (string * option json)) : json :=
  JObj (defined_props props).

Definition nullable (s : option string) : option json :=
  match s with
  | Some x => Some (JStr x)
  | None => Some JNull
  end.

(* ------------------------------------------------------------------ *)
(** ** Protocol errors and exceptions *)

(** The three protocol error codes the program uses. *)
Inductive ErrorCode : Type := InvalidParams | MethodNotFound | InternalError.

(** Numeric values fixed by the host protocol. *)
Definition ErrorCode_value (c : ErrorCode) : Z :=
  match c with
  | InvalidParams => -32602
  | MethodNotFound => -32601
  | InternalError => -32603
  end%Z.

(** What the validator reports about one offending field. *)
Inductive ZodIssueCode : Type :=
| invalid_type (expected received : string)
| invalid_enum_value (received : string) (options : list string).

Record ZodIssue : Type := mkIssue {
  issue_code : ZodIssueCode;
  issue_path : list string
}.

(** Values that can be thrown during a dispatch: a protocol error, the
    validator's error, or any other error object carrying a message. *)
Inductive exn : Type :=
| McpError (code : ErrorCode) (message : string)
| ZodError (issues : list ZodIssue)
| Error (message : string).

Definition instanceof_McpError (e : exn) : bool :=
  match e with
  | McpError _ _ => true
  | _ => false
  end.

(* ------------------------------------------------------------------ *)
(** ** Validated parameters *)

Inductive Action : Type :=
| act_list | act_create | act_clone | act_view | act_delete | act_fork.

Definition Action_name (a : Action) : string :=
  match a with
  | act_list => "list"
  | act_create => "create"
  | act_clone => "clone"
  | act_view => "view"
  | act_delete => "delete"
  | act_fork => "fork"
  end.

Definition Action_values : list Action :=
  [act_list; act_create; act_clone; act_view; act_delete; act_fork].

(** The literal whose name is [s], if [s] is one of the six. *)
Definition Action_of_string (s : string) : option Action :=
  find (fun a => String.eqb s (Action_name a)) Action_values.

(** The output type of [GitHubActionSchema]. *)
Record Params : Type := mkParams {
  action : Action;
  name : option string;
  description : option string;
  public : option bool;
  clone : option bool;
  path : option string;
  org : option string
}.

(* ------------------------------------------------------------------ *)
(** ** The argument validator, [GitHubActionSchema.parse]

    Each field schema maps the property value (or [None] when the property
    is missing) to either the issues found or the parsed value.  The object
    schema reads its seven declared keys, ignores every other key, and fails
    with the issues of all offending keys, in declaration order. *)

Definition parsedType (v : option json) : string :=
  match v with
  | None => "undefined"
  | Some JNull => "null"
  | Some (JBool _) => "boolean"
  | Some (JNum _) => "number"
  | Some (JStr _) => "string"
  | Some (JArr _) => "array"
  | Some (JObj _) => "object"
  end.

Definition Parsed (A : Type) : Type := (list ZodIssue + A)%type.

Definition issues_of {A : Type} (p : Parsed A) : list ZodIssue :=
  match p with
  | inl found => found
  | inr _ => []
  end.

Definition z_string (at_path : list string) (v : option json) : Parsed string :=
  match v with
  | Some (JStr s) => inr s
  | _ => inl [mkIssue (invalid_type "string" (parsedType v)) at_path]
  end.

Definition z_boolean (at_path : list string) (v : option json) : Parsed bool :=
  match v with
  | Some (JBool b) => inr b
  | _ => inl [mkIssue (invalid_type "boolean" (parsedType v)) at_path]
  end.

(** [schema.optional()]: a missing property is accepted as [undefined]. *)
Definition z_optional {A : Type} (schema : list string -> option json -> Parsed A)
    (at_path : list string) (v : option json) : Parsed (option A) :=
  match v with
  | None => inr None
  | Some _ =>
      match schema at_path v with
      | inr a => inr (Some a)
      | inl found => inl found
      end
  end.

Definition quoted_alternatives (names : list string) : string :=
  join " | " (map (fun n => "'" ++ n ++ "'") names).

(** [z.enum (['list', 'create', 'clone', 'view', 'delete', 'fork'])]. *)
Definition z_enum_Action (at_path : list string) (v : option json) : Parsed Action :=
  match v with
  | Some (JStr s) =>
      match Action_of_string s with
      | Some a => inr a
      | None => inl [mkIssue (invalid_enum_value s (map Action_name Action_values)) at_path]
      end
  | _ =>
      inl [mkIssue (invalid_type (quoted_alternatives (map Action_name Action_values))
                                 (parsedType v)) at_path]
  end.

Definition GitHubActionSchema_safeParse (args : option json) : Parsed Params :=
  match args with
  | Some (JObj fields) =>
      let p_action := z_enum_Action ["action"] (prop "action" fields) in
      let p_name := z_optional z_string ["name"] (prop "name" fields) in
      let p_description := z_optional z_string ["description"] (prop "description" fields) in
      let p_public := z_optional z_boolean ["public"] (prop "public" fields) in
      let p_clone := z_optional z_boolean ["clone"] (prop "clone" fields) in
      let p_path := z_optional z_string ["path"] (prop "path" fields) in
      let p_org := z_optional z_string ["org"] (prop "org" fields) in
      match p_action, p_name, p_description, p_public, p_clone, p_path, p_org with
      | inr a, inr n, inr d, inr pu, inr c, inr pa, inr o => inr (mkParams a n d pu c pa o)
      | _, _, _, _, _, _, _ =>
          inl (issues_of p_action ++ issues_of p_name ++ issues_of p_description
                 ++ issues_of p_public ++ issues_of p_clone ++ issues_of p_path
                 ++ issues_of p_org)%list
      end
  | _ => inl [mkIssue (invalid_type "object" (parsedType args)) []]
  end.

(* ------------------------------------------------------------------ *)
(** ** Data returned by the API client

    The fields the handlers read, typed as the client declares them:
    [description] and [language] may be [null], [topics] may be missing. *)

Module Api.

Record Repository : Type := mkRepository {
  full_name : string;
  description : option string;
  private : bool;
  html_url : string;
  language : option string;
  stargazers_count : Z;
  forks_count : Z;
  open_issues_count : Z;
  created_at : string;
  updated_at : string;
  topics : option (list string);
  default_branch : string
}.

Record User : Type := mkUser { login : string }.

End Api.

(** The outbound calls, with the request parameters the program sends. *)
Inductive Call : Type :=
| repos_listForAuthenticatedUser (sort : string) (per_page : Z)
| repos_createForAuthenticatedUser
    (name : string) (description : option string) (private auto_init : bool)
| users_getAuthenticated
| repos_get (owner repo : string).

Inductive Outcome : Type :=
| Returned
| Raised (e : exn).

(* ------------------------------------------------------------------ *)
(** ** The response envelope *)

Record ContentBlock : Type := mkBlock { type : string; text : string }.

Record ToolResult : Type := mkResult { content : list ContentBlock }.

Definition text_result (s : string) : ToolResult :=
  mkResult [mkBlock "text" s].

(* ------------------------------------------------------------------ *)
(** ** Computations: remote state, call log and exceptions *)

(** How an evaluation completes: normally with a value, or abruptly with a
    thrown exception. *)
Inductive Completion (A : Type) : Type :=
| Normal (a : A)
| Abrupt (e : exn).

Arguments Normal {A} a.
Arguments Abrupt {A} e.

Section Dispatch.

(** The state of the remote service, whatever it is. *)
Variable Remote : Type.

(** What an awaited client call settles to, and the remote state after. *)
Definition Reply (A : Type) : Type := ((A + exn) * Remote)%type.

(** The API client: one oracle per endpoint the program uses. *)
Record Octokit : Type := mkOctokit {
  api_repos_listForAuthenticatedUser :
    string -> Z -> Remote -> Reply (list Api.Repository);
  api_repos_createForAuthenticatedUser :
    string -> option string -> bool -> bool -> Remote -> Reply Api.Repository;
  api_users_getAuthenticated : Remote -> Reply Api.User;
  api_repos_get : string -> string -> Remote -> Reply Api.Repository
}.

Variable octokit : Octokit.

(** The validator library's rendering of an issue list as the message of
    the error it throws. *)
Variable zod_message : list ZodIssue -> string.

Definition exn_message (e : exn) : string :=
  match e with
  | McpError _ m => m
  | ZodError issues => zod_message issues
  | Error m => m
  end.

Record World : Type := mkWorld {
  remote : Remote;
  outbound : list (Call * Outcome)
}.

Definition M (A : Type) : Type := World -> Completion A * World.

Definition ret {A : Type} (a : A) : M A := fun w => (Normal a, w).

Definition throw {A : Type} (e : exn) : M A := fun w => (Abrupt e, w).

Definition bind {A B : Type} (m : M A) (k : A -> M B) : M B :=
  fun w =>
    match m w with
    | (Normal a, w') => k a w'
    | (Abrupt e, w') => (Abrupt e, w')
    end.

(** [try { m } catch (error) { handler error }] *)
Definition try_catch {A : Type} (m : M A) (handler : exn -> M A) : M A :=
  fun w =>
    match m w with
    | (Normal a, w') => (Normal a, w')
    | (Abrupt e, w') => handler e w'
    end.

(** [await] of one client call: the call is logged with its outcome; a
    rejected call throws at the point of the [await]. *)
Definition await {A : Type} (c : Call) (endpoint : Remote -> Reply A) : M A :=
  fun w =>
    match endpoint (remote w) with
    | (inl data, r') =>
        (Normal data, mkWorld r' (outbound w ++ [(c, Returned)])%list)
    | (inr e, r') =>
        (Abrupt e, mkWorld r' (outbound w ++ [(c, Raised e)])%list)
    end.

Notation "x <- m ;; k" := (bind m (fun x => k))
  (at level 61, m at next level, right associativity).

(** The four client methods the program calls. *)
Definition octokit_repos_listForAuthenticatedUser (sort : string) (per_page : Z)
    : M (list Api.Repository) :=
  await (repos_listForAuthenticatedUser sort per_page)
        (api_repos_listForAuthenticatedUser octokit sort per_page).

Definition octokit_repos_createForAuthenticatedUser
    (name : string) (description : option string) (private auto_init : bool)
    : M Api.Repository :=
  await (repos_createForAuthenticatedUser name description private auto_init)
        (api_repos_createForAuthenticatedUser octokit name description private auto_init).

Definition octokit_users_getAuthenticated : M Api.User :=
  await users_getAuthenticated (api_users_getAuthenticated octokit).

Definition octokit_repos_get (owner repo : string) : M Api.Repository :=
  await (repos_get owner repo) (api_repos_get octokit owner repo).

(** [GitHubActionSchema.parse]: throws the validator's error on failure. *)
Definition GitHubActionSchema_parse (args : option json) : M Params :=
  match GitHubActionSchema_safeParse args with
  | inr params => ret params
  | inl issues => throw (ZodError issues)
  end.

(* ---------------------------------------------------------------- *)
(** ** The handlers *)

(** One element of the [list] answer. *)
Definition repo_summary (repo : Api.Repository) : json :=
  object_literal
    [ ("name", Some (JStr (Api.full_name repo)));
      ("description", nullable (Api.description repo));
      ("private", Some (JBool (Api.private repo)));
      ("url", Some (JStr (Api.html_url repo)));
      ("language", nullable (Api.language repo));
      ("stars", Some (JNum (Api.stargazers_count repo)));
      ("updated", Some (JStr (Api.updated_at repo))) ].

(** The [view] answer. *)
Definition repo_details (data : Api.Repository) : json :=
  object_literal
    [ ("name", Some (JStr (Api.full_name data)));
      ("description", nullable (Api.description data));
      ("private", Some (JBool (Api.private data)));
      ("url", Some (JStr (Api.html_url data)));
      ("language", nullable (Api.language data));
      ("stars", Some (JNum (Api.stargazers_count data)));
      ("forks", Some (JNum (Api.forks_count data)));
      ("issues", Some (JNum (Api.open_issues_count data)));
      ("created", Some (JStr (Api.created_at data)));
      ("updated", Some (JStr (Api.updated_at data)));
      ("topics", option_map (fun ts => JArr (map JStr ts)) (Api.topics data));
      ("default_branch", Some (JStr (Api.default_branch data))) ].

(** [const [owner, repo] = name.split('/')]: the first two segments.  The
    defaults stand for a missing element; [split_at_least_two] below shows
    they are not used when the name includes the separator. *)
Definition first_two (segments : list string) : string * string :=
  (nth 0 segments EmptyString, nth 1 segments EmptyString).

Definition handleRepoAction (args : option json) : M ToolResult :=
  params <- GitHubActionSchema_parse args ;;
  match action params with
  | act_list =>
      data <- octokit_repos_listForAuthenticatedUser "updated" 100 ;;
      ret (text_result (JSON_stringify (JArr (map repo_summary data))))
  | act_create =>
      (* [!params.name] holds for a missing name and for the empty string *)
      match name params with
      | Some (String a rest) =>
          data <- octokit_repos_createForAuthenticatedUser
                    (String a rest) (description params)
                    (negb (truthy_bool (public params))) true ;;
          ret (text_result ("Repository created: " ++ Api.html_url data))
      | _ => throw (McpError InvalidParams "Repository name is required")
      end
  | act_view =>
      match name params with
      | Some (String a rest) =>
          let name := String a rest in
          owner_repo <-
            (if includes slash name then ret (first_two (split slash name))
             else (user <- octokit_users_getAuthenticated ;;
                   ret (Api.login user, name))) ;;
          data <- octokit_repos_get (fst owner_repo) (snd owner_repo) ;;
          ret (text_result (JSON_stringify (repo_details data)))
      | _ => throw (McpError InvalidParams "Repository name is required")
      end
  | act_clone | act_delete | act_fork =>
      throw (McpError InvalidParams
               ("Unsupported action: " ++ Action_name (action params)))
  end.

Definition handlePRAction (args : option json) : M ToolResult :=
  ret (text_result "PR action handler not fully implemented yet").

Definition handleIssueAction (args : option json) : M ToolResult :=
  ret (text_result "Issue action handler not fully implemented yet").

(* ---------------------------------------------------------------- *)
(** ** The call-tool request handler of [setupHandlers] *)

(** The handler with the three tool handlers it switches to left open. *)
Definition callTool_with (onRepo onPR onIssue : option json -> M ToolResult)
    (tool : string) (args : option json) : M ToolResult :=
  try_catch
    (if String.eqb tool "gh_repo" then onRepo args
     else if String.eqb tool "gh_pr" then onPR args
     else if String.eqb tool "gh_issue" then onIssue args
     else throw (McpError MethodNotFound ("Unknown tool: " ++ tool)))
    (fun error =>
       if instanceof_McpError error then throw error
       else throw (McpError InternalError
                     ("GitHub API error: " ++ exn_message error))).

Definition callTool : string -> option json -> M ToolResult :=
  callTool_with handleRepoAction handlePRAction handleIssueAction.

(** One dispatch: the handler run against the remote state [r], starting
    with an empty call log. *)
Definition dispatch (tool : string) (args : option json) (r : Remote)
    : Completion ToolResult * World :=
  callTool tool args (mkWorld r []).

Definition calls_of (w : World) : list Call := map fst (outbound w).

End Dispatch.

Arguments mkOctokit {Remote}.
Arguments api_repos_listForAuthenticatedUser {Remote}.
Arguments api_repos_createForAuthenticatedUser {Remote}.
Arguments api_users_getAuthenticated {Remote}.
Arguments api_repos_get {Remote}.
Arguments mkWorld {Remote}.
Arguments remote {Remote}.
Arguments outbound {Remote}.
Arguments calls_of {Remote}.
Arguments ret {Remote A}.
Arguments throw {Remote A}.
Arguments bind {Remote A B}.
Arguments try_catch {Remote A}.
Arguments await {Remote A}.
Arguments handleRepoAction {Remote}.
Arguments handlePRAction {Remote}.
Arguments handleIssueAction {Remote}.
Arguments callTool_with {Remote}.
Arguments callTool {Remote}.
Arguments dispatch {Remote}.

(* ------------------------------------------------------------------ *)
(** ** Concrete collaborators, for running the dispatcher on examples *)

(** zod 3 renders its issue list as indented JSON. *)
Definition zod3_issue (i : ZodIssue) : json :=
  let at_path := JArr (map JStr (issue_path i)) in
  match issue_code i with
  | invalid_type expected received =>
      JObj [ ("code", JStr "invalid_type");
             ("expected", JStr expected);
             ("received", JStr received);
             ("path", at_path);
             ("message",
              JStr (if String.eqb received "undefined" then "Required"
                    else "Expected " ++ expected ++ ", received " ++ received)) ]
  | invalid_enum_value received options =>
      JObj [ ("received", JStr received);
             ("code", JStr "invalid_enum_value");
             ("options", JArr (map JStr options));
             ("path", at_path);
             ("message",
              JStr ("Invalid enum value. Expected " ++ quoted_alternatives options
                      ++ ", received '" ++ received ++ "'")) ]
  end.

Definition zod3_message (issues : list ZodIssue) : string :=
  JSON_stringify (JArr (map zod3_issue issues)).

(** A remote service with one account, [octocat]; its state is the list of
    repositories created so far. *)
Definition octocat_repo (owner repo : string) : Api.Repository :=
  Api.mkRepository (owner ++ "/" ++ repo) None false
    ("https://github.com/" ++ owner ++ "/" ++ repo) None 0 0 0
    "2024-01-01T00:00:00Z" "2024-01-01T00:00:00Z" (Some []) "main".

Definition octocat : Octokit (list Api.Repository) :=
  mkOctokit
    (fun _ _ repos => (inl repos, repos))
    (fun name description private _ repos =>
       let created :=
         Api.mkRepository ("octocat/" ++ name) description private
           ("https://github.com/octocat/" ++ name) None 0 0 0
           "2024-01-01T00:00:00Z" "2024-01-01T00:00:00Z" (Some []) "main" in
       (inl created, created :: repos))
    (fun repos => (inl (Api.mkUser "octocat"), repos))
    (fun owner repo repos => (inl (octocat_repo owner repo), repos)).

(** A client whose every call is rejected (no network). *)
Definition offline : Octokit unit :=
  let failure := Error "getaddrinfo ENOTFOUND api.github.com" in
  mkOctokit
    (fun _ _ u => (inr failure, u))
    (fun _ _ _ _ u => (inr failure, u))
    (fun u => (inr failure, u))
    (fun _ _ u => (inr failure, u)).

(** Argument objects used in the examples. *)
Definition args_of (fields : list (string * json)) : option json :=
  Some (JObj fields).

(* ------------------------------------------------------------------ *)
(** ** Shapes of property values *)

(** The property is missing or holds a string (a boolean). *)
Definition absent_or_string (v : option json) : bool :=
  match v with
  | None | Some (JStr _) => true
  | _ => false
  end.

Definition absent_or_boolean (v : option json) : bool :=
  match v with
  | None | Some (JBool _) => true
  | _ => false
  end.

(* ------------------------------------------------------------------ *)
(** ** The tool catalog returned by the list-tools handler *)

(** One entry of a JSON-schema [properties] object, with the keywords the
    catalog uses. *)
Record PropertySchema : Type := mkProperty {
  prop_type : string;
  prop_enum : option (list string);
  prop_items : option string;
  prop_description : option string;
  prop_default : option json
}.

Record InputSchema : Type := mkInputSchema {
  schema_type : string;
  properties : list (string * PropertySchema);
  required : list string
}.

Record ToolDescriptor : Type := mkTool {
  tool_name : string;
  tool_description : string;
  inputSchema : InputSchema
}.

Definition described (ty description : string) : PropertySchema :=
  mkProperty ty None None (Some description) None.

Definition enumerated (values : list string) (description : string) : PropertySchema :=
  mkProperty "string" (Some values) None (Some description) None.

Definition string_array (description : string) : PropertySchema :=
  mkProperty "array" None (Some "string") (Some description) None.

Definition state_property : PropertySchema :=
  mkProperty "string" (Some ["open"; "closed"; "all"]) None None (Some (JStr "open")).

Definition gh_repo_tool : ToolDescriptor :=
  mkTool "gh_repo" "Manage GitHub repositories"
    (mkInputSchema "object"
       [ ("action",
          enumerated ["list"; "create"; "clone"; "view"; "delete"; "fork"]
            "Repository action");
         ("name", described "string" "Repository name (owner/repo or just repo)");
         ("description", described "string" "Repository description");
         ("public",
          mkProperty "boolean" None None (Some "Make repository public")
            (Some (JBool true)));
         ("org", described "string" "Organization name");
         ("path", described "string" "Local path for clone") ]
       ["action"]).

Definition gh_pr_tool : ToolDescriptor :=
  mkTool "gh_pr" "Manage pull requests"
    (mkInputSchema "object"
       [ ("action",
          enumerated ["list"; "create"; "view"; "merge"; "close"; "review"; "checkout"]
            "PR action");
         ("repo", described "string" "Repository (owner/repo)");
         ("number", described "number" "PR number");
         ("title", described "string" "PR title");
         ("body", described "string" "PR body");
         ("base", described "string" "Base branch");
         ("head", described "string" "Head branch");
         ("state", state_property);
         ("draft", mkProperty "boolean" None None None (Some (JBool false))) ]
       ["action"]).

Definition gh_issue_tool : ToolDescriptor :=
  mkTool "gh_issue" "Manage GitHub issues"
    (mkInputSchema "object"
       [ ("action",
          enumerated ["list"; "create"; "view"; "close"; "reopen"; "comment"]
            "Issue action");
         ("repo", described "string" "Repository (owner/repo)");
         ("number", described "number" "Issue number");
         ("title", described "string" "Issue title");
         ("body", described "string" "Issue body");
         ("labels", string_array "Issue labels");
         ("assignees", string_array "Assignees");
         ("state", state_property) ]
       ["action"]).

(** The [tools] array of the list-tools answer. *)
Definition tools : list ToolDescriptor := [gh_repo_tool; gh_pr_tool; gh_issue_tool].

(** The list-tools request handler: no argument, no call. *)
Definition ListToolsRequest_handler {Remote : Type} : M Remote (list ToolDescriptor) :=
  ret tools.

(** The descriptor of a tool, and the schema of one of its properties. *)
Definition find_tool (tool : string) : option ToolDescriptor :=
  find (fun t => String.eqb tool (tool_name t)) tools.

Fixpoint assoc {A : Type} (k : string) (l : list (string * A)) : option A :=
  match l with
  | [] => None
  | (k', v) :: rest => if String.eqb k k' then Some v else assoc k rest
  end.

Definition advertised_enum (t : ToolDescriptor) (property : string) : list string :=
  match assoc property (properties (inputSchema t)) with
  | Some ps => match prop_enum ps with Some values => values | None => [] end
  | None => []
  end.

(** The keys declared by [GitHubActionSchema], in declaration order. *)
Definition GitHubActionSchema_keys : list string :=
  ["action"; "name"; "description"; "public"; "clone"; "path"; "org"].

(* ------------------------------------------------------------------ *)
(** ** The catch clause of the call-tool handler, on its own *)

Definition catch_clause {Remote : Type} (zod_message : list ZodIssue -> string)
    (error : exn) : M Remote ToolResult :=
  if instanceof_McpError error then throw error
  else throw (McpError InternalError
                ("GitHub API error: " ++ exn_message zod_message error)).

(* ------------------------------------------------------------------ *)
(** ** Start-up: the constructor of [GitHubMCPServer] *)

(** What the constructor sets up: the server identity and the credential
    handed to the API client. *)
Record ServerSetup : Type := mkSetup {
  server_name : string;
  server_version : string;
  client_auth : string
}.

(** [env] is [process.env]: a missing variable reads as [undefined]. *)
Definition constructor (env : string -> option string) : exn + ServerSetup :=
  match env "GITHUB_TOKEN" with
  | Some (String a rest) => inr (mkSetup "github-mcp" "1.0.0" (String a rest))
  | _ => inl (Error "GITHUB_TOKEN environment variable is required")
  end.

(* ------------------------------------------------------------------ *)
(** * Properties *)

(** ** Strings *)

Lemma split_length (c : ascii) (s : string) :
  length (split c s) = S (occurrences c s).
Proof.
  induction s as [|a rest IH]; simpl; [reflexivity|].
  destruct (Ascii.eqb a c); simpl.
  - now rewrite IH.
  - destruct (split c rest) as [|seg segs]; simpl in *; [discriminate IH | exact IH].
Qed.

Lemma includes_occurrences (c : ascii) (s : string) :
  includes c s = true <-> 1 <= occurrences c s.
Proof.
  induction s as [|a rest IH]; simpl.
  - split; [discriminate | lia].
  - destruct (Ascii.eqb a c); simpl; [split; [lia | reflexivity] | exact IH].
Qed.

(** A name that includes the separator splits into at least two segments,
    so the destructuring of the split never meets a missing element. *)
Lemma split_at_least_two (c : ascii) (s : string) :
  includes c s = true ->
  exists owner repo more, split c s = owner :: repo :: more.
Proof.
  intros H. apply includes_occurrences in H.
  pose proof (split_length c s) as L.
  destruct (split c s) as [|o [|r more]]; simpl in L; try lia.
  now exists o, r, more.
Qed.

Lemma split_three (c : ascii) (s : string) :
  2 <= occurrences c s ->
  exists owner repo extra more, split c s = owner :: repo :: extra :: more.
Proof.
  intros H. pose proof (split_length c s) as L.
  destruct (split c s) as [|o [|r [|x more]]]; simpl in L; try lia.
  now exists o, r, x, more.
Qed.

Lemma contains_suffix (prefix s : string) : contains (prefix ++ s) s.
Proof.
  exists prefix, EmptyString.
  f_equal. induction s as [|a s IH]; simpl; [reflexivity | now rewrite <- IH].
Qed.

(** ** The validator *)

Lemma Action_of_string_name (s : string) (a : Action) :
  Action_of_string s = Some a -> s = Action_name a.
Proof.
  unfold Action_of_string. intros H.
  apply find_some in H. destruct H as [_ H]. now apply String.eqb_eq.
Qed.

Lemma Action_of_string_complete (a : Action) :
  Action_of_string (Action_name a) = Some a.
Proof. destruct a; reflexivity. Qed.

Lemma z_optional_missing {A : Type} (schema : list string -> option json -> Parsed A)
    (at_path : list string) (a : option A) :
  z_optional schema at_path None = inr a -> a = None.
Proof. simpl. congruence. Qed.

(** What a successful parse says about the raw argument object. *)
Lemma safeParse_inr (args : option json) (p : Params) :
  GitHubActionSchema_safeParse args = inr p ->
  exists fields,
    args = Some (JObj fields)
    /\ z_enum_Action ["action"] (prop "action" fields) = inr (action p)
    /\ z_optional z_string ["name"] (prop "name" fields) = inr (name p)
    /\ z_optional z_boolean ["public"] (prop "public" fields) = inr (public p).
Proof.
  unfold GitHubActionSchema_safeParse.
  destruct args as [[| | | | |fields]|]; try discriminate.
  intros H. exists fields. split; [reflexivity|].
  destruct (z_enum_Action ["action"] (prop "action" fields)); try discriminate;
  destruct (z_optional z_string ["name"] (prop "name" fields)); try discriminate;
  destruct (z_optional z_string ["description"] (prop "description" fields)); try discriminate;
  destruct (z_optional z_boolean ["public"] (prop "public" fields)); try discriminate;
  destruct (z_optional z_boolean ["clone"] (prop "clone" fields)); try discriminate;
  destruct (z_optional z_string ["path"] (prop "path" fields)); try discriminate;
  destruct (z_optional z_string ["org"] (prop "org" fields)); try discriminate.
  injection H as <-. simpl. auto.
Qed.

Lemma parsed_action (fields : list (string * json)) (p : Params) :
  GitHubActionSchema_safeParse (Some (JObj fields)) = inr p ->
  prop "action" fields = Some (JStr (Action_name (action p))).
Proof.
  intros H. apply safeParse_inr in H.
  destruct H as (fs & E & Ha & _). injection E as <-.
  unfold z_enum_Action in Ha.
  destruct (prop "action" fields) as [[| | |s| |]|]; try discriminate.
  destruct (Action_of_string s) eqn:Es; try discriminate.
  injection Ha as <-. apply Action_of_string_name in Es. now subst.
Qed.

Lemma parsed_name_missing (fields : list (string * json)) (p : Params) :
  GitHubActionSchema_safeParse (Some (JObj fields)) = inr p ->
  prop "name" fields = None ->
  name p = None.
Proof.
  intros H N. apply safeParse_inr in H.
  destruct H as (fs & E & _ & Hn & _). injection E as <-.
  rewrite N in Hn. now apply z_optional_missing in Hn.
Qed.

Lemma parsed_name_given (fields : list (string * json)) (p : Params) (n : string) :
  GitHubActionSchema_safeParse (Some (JObj fields)) = inr p ->
  prop "name" fields = Some (JStr n) ->
  name p = Some n.
Proof.
  intros H N. apply safeParse_inr in H.
  destruct H as (fs & E & _ & Hn & _). injection E as <-.
  rewrite N in Hn. simpl in Hn. congruence.
Qed.

Lemma parsed_action_given (fields : list (string * json)) (p : Params) (a : Action) :
  GitHubActionSchema_safeParse (Some (JObj fields)) = inr p ->
  prop "action" fields = Some (JStr (Action_name a)) ->
  action p = a.
Proof.
  intros H Ha. apply parsed_action in H. rewrite Ha in H.
  injection H as H. destruct a, (action p); simpl in H; congruence.
Qed.

Lemma parsed_public_missing (fields : list (string * json)) (p : Params) :
  GitHubActionSchema_safeParse (Some (JObj fields)) = inr p ->
  prop "public" fields = None ->
  public p = None.
Proof.
  intros H N. apply safeParse_inr in H.
  destruct H as (fs & E & _ & _ & Hp). injection E as <-.
  rewrite N in Hp. now apply z_optional_missing in Hp.
Qed.

Lemma parsed_public_given (fields : list (string * json)) (p : Params) (b : bool) :
  GitHubActionSchema_safeParse (Some (JObj fields)) = inr p ->
  prop "public" fields = Some (JBool b) ->
  public p = Some b.
Proof.
  intros H N. apply safeParse_inr in H.
  destruct H as (fs & E & _ & _ & Hp). injection E as <-.
  rewrite N in Hp. simpl in Hp. congruence.
Qed.

(** An action name outside the enumeration is refused by the schema. *)
Lemma safeParse_unknown_action (fields : list (string * json)) (s : string) :
  prop "action" fields = Some (JStr s) ->
  Action_of_string s = None ->
  exists issues, GitHubActionSchema_safeParse (Some (JObj fields)) = inl issues.
Proof.
  intros Hs Hn.
  destruct (GitHubActionSchema_safeParse (Some (JObj fields))) as [is0|p] eqn:E.
  - now exists is0.
  - apply parsed_action in E. rewrite Hs in E. injection E as ->.
    rewrite Action_of_string_complete in Hn. discriminate.
Qed.

(** ** More on strings and on the validator *)

Lemma split_not_nil (c : ascii) (s : string) : split c s <> [].
Proof.
  intros E. pose proof (split_length c s) as L. rewrite E in L. discriminate L.
Qed.

(** No segment of a split holds the separator. *)
Lemma split_segments_clean (c : ascii) (s : string) :
  Forall (fun seg => includes c seg = false) (split c s).
Proof.
  induction s as [|a rest IH]; simpl.
  - repeat constructor.
  - destruct (Ascii.eqb a c) eqn:E.
    + constructor; [reflexivity | exact IH].
    + destruct (split c rest) as [|seg segs].
      * repeat constructor. simpl. now rewrite E.
      * inversion IH as [|? ? Hseg Hsegs]; subst.
        constructor; [simpl; now rewrite E | exact Hsegs].
Qed.

Lemma join_cons_char (sep : string) (a : ascii) (seg : string) (segs : list string) :
  join sep (String a seg :: segs) = String a (join sep (seg :: segs)).
Proof. destruct segs; reflexivity. Qed.

(** Joining the segments with the separator gives the string back. *)
Lemma join_split (c : ascii) (s : string) :
  join (String c EmptyString) (split c s) = s.
Proof.
  induction s as [|a rest IH]; simpl; [reflexivity|].
  destruct (Ascii.eqb_spec a c) as [->|Hne].
  - pose proof (split_not_nil c rest) as Hnil.
    destruct (split c rest) as [|seg segs]; [congruence|].
    simpl in *. now rewrite IH.
  - pose proof (split_not_nil c rest) as Hnil.
    destruct (split c rest) as [|seg segs]; [congruence|].
    rewrite join_cons_char. now rewrite IH.
Qed.

Lemma z_optional_string_accepts (at_path : list string) (v : option json) :
  (exists x, z_optional z_string at_path v = inr x) <-> absent_or_string v = true.
Proof.
  destruct v as [[| | | | |]|]; simpl; split; intros H;
    solve [ reflexivity | discriminate H | eexists; reflexivity
          | destruct H; discriminate ].
Qed.

Lemma z_optional_boolean_accepts (at_path : list string) (v : option json) :
  (exists x, z_optional z_boolean at_path v = inr x) <-> absent_or_boolean v = true.
Proof.
  destruct v as [[| | | | |]|]; simpl; split; intros H;
    solve [ reflexivity | discriminate H | eexists; reflexivity
          | destruct H; discriminate ].
Qed.

Lemma z_enum_Action_accepts (at_path : list string) (v : option json) :
  (exists a, z_enum_Action at_path v = inr a)
  <-> exists a, v = Some (JStr (Action_name a)).
Proof.
  split.
  - intros [a H]. unfold z_enum_Action in H.
    destruct v as [[| | |s| |]|]; try discriminate H.
    destruct (Action_of_string s) as [a'|] eqn:E; try discriminate H.
    exists a'. apply Action_of_string_name in E. now subst.
  - intros [a ->]. exists a. unfold z_enum_Action.
    now rewrite Action_of_string_complete.
Qed.

(** The validator reads the seven declared keys and nothing else. *)
Lemma safeParse_declared_keys (fields fields' : list (string * json)) :
  (forall k, In k GitHubActionSchema_keys -> prop k fields = prop k fields') ->
  GitHubActionSchema_safeParse (Some (JObj fields))
  = GitHubActionSchema_safeParse (Some (JObj fields')).
Proof.
  intros H. unfold GitHubActionSchema_safeParse.
  rewrite (H "action"), (H "name"), (H "description"), (H "public"),
    (H "clone"), (H "path"), (H "org"); try reflexivity;
    unfold GitHubActionSchema_keys; simpl; tauto.
Qed.

(** X10: the validator accepts exactly the objects whose [action] is a
    string naming one of the six actions and whose [name], [description],
    [path], [org] are missing or strings and [public], [clone] are missing or
    booleans; in particular a missing arguments object, a non-object and an
    explicit [null] in a declared field are all refused. *)
Theorem validator_accepts_exactly (args : option json) :
  (exists p, GitHubActionSchema_safeParse args = inr p)
  <-> exists fields,
      args = Some (JObj fields)
      /\ (exists a, prop "action" fields = Some (JStr (Action_name a)))
      /\ absent_or_string (prop "name" fields) = true
      /\ absent_or_string (prop "description" fields) = true
      /\ absent_or_boolean (prop "public" fields) = true
      /\ absent_or_boolean (prop "clone" fields) = true
      /\ absent_or_string (prop "path" fields) = true
      /\ absent_or_string (prop "org" fields) = true.
Proof.
  split.
  - intros [p H]. unfold GitHubActionSchema_safeParse in H.
    destruct args as [[| | | | |fields]|]; try discriminate H.
    exists fields. split; [reflexivity|].
    destruct (z_enum_Action ["action"] (prop "action" fields)) eqn:E1; try discriminate H;
    destruct (z_optional z_string ["name"] (prop "name" fields)) eqn:E2; try discriminate H;
    destruct (z_optional z_string ["description"] (prop "description" fields)) eqn:E3;
      try discriminate H;
    destruct (z_optional z_boolean ["public"] (prop "public" fields)) eqn:E4;
      try discriminate H;
    destruct (z_optional z_boolean ["clone"] (prop "clone" fields)) eqn:E5;
      try discriminate H;
    destruct (z_optional z_string ["path"] (prop "path" fields)) eqn:E6; try discriminate H;
    destruct (z_optional z_string ["org"] (prop "org" fields)) eqn:E7; try discriminate H.
    repeat split.
    + apply (z_enum_Action_accepts ["action"]). eauto.
    + apply (z_optional_string_accepts ["name"]). eauto.
    + apply (z_optional_string_accepts ["description"]). eauto.
    + apply (z_optional_boolean_accepts ["public"]). eauto.
    + apply (z_optional_boolean_accepts ["clone"]). eauto.
    + apply (z_optional_string_accepts ["path"]). eauto.
    + apply (z_optional_string_accepts ["org"]). eauto.
  - intros (fields & -> & Ha & Hn & Hd & Hpu & Hc & Hpa & Ho).
    apply (z_enum_Action_accepts ["action"]) in Ha. destruct Ha as [a Ea].
    apply (z_optional_string_accepts ["name"]) in Hn. destruct Hn as [n En].
    apply (z_optional_string_accepts ["description"]) in Hd. destruct Hd as [d Ed].
    apply (z_optional_boolean_accepts ["public"]) in Hpu. destruct Hpu as [pu Epu].
    apply (z_optional_boolean_accepts ["clone"]) in Hc. destruct Hc as [c Ec].
    apply (z_optional_string_accepts ["path"]) in Hpa. destruct Hpa as [pa Epa].
    apply (z_optional_string_accepts ["org"]) in Ho. destruct Ho as [o Eo].
    exists (mkParams a n d pu c pa o).
    unfold GitHubActionSchema_safeParse. now rewrite Ea, En, Ed, Epu, Ec, Epa, Eo.
Qed.

(** ** The dispatcher, for any remote service and any client behaviour *)

Section Properties.

Variable Remote : Type.
Variable octokit : Octokit Remote.
Variable zod_message : list ZodIssue -> string.

#[local] Arguments includes : simpl never.
#[local] Arguments split : simpl never.
#[local] Arguments first_two : simpl never.
#[local] Arguments JSON_stringify : simpl never.
#[local] Arguments repo_details : simpl never.
#[local] Arguments repo_summary : simpl never.
#[local] Arguments String.append : simpl never.

Ltac step_handler :=
  unfold dispatch, callTool, callTool_with, try_catch, handleRepoAction,
    handlePRAction, handleIssueAction, GitHubActionSchema_parse, bind, ret, throw,
    octokit_repos_listForAuthenticatedUser, octokit_repos_createForAuthenticatedUser,
    octokit_users_getAuthenticated, octokit_repos_get, await;
  simpl.

(** A schema failure leaves the repository handler as the validator's own
    error, before anything else happens. *)
Lemma handleRepoAction_refused (args : option json) (issues : list ZodIssue)
    (w : World Remote) :
  GitHubActionSchema_safeParse args = inl issues ->
  handleRepoAction octokit args w = (Abrupt (ZodError issues), w).
Proof. intros H. step_handler. now rewrite H. Qed.

(** The top-level catch turns it into an internal error. *)
Lemma schema_failure_is_internal_error (args : option json)
    (issues : list ZodIssue) (r : Remote) :
  GitHubActionSchema_safeParse args = inl issues ->
  dispatch octokit zod_message "gh_repo" args r
  = (Abrupt (McpError InternalError ("GitHub API error: " ++ zod_message issues)),
     mkWorld r []).
Proof. intros H. step_handler. now rewrite H. Qed.

(** The [private] flag and [auto_init] of every create call. *)
Lemma create_call_flags (args : option json) (p : Params) (n : string) (r : Remote) :
  GitHubActionSchema_safeParse args = inr p ->
  action p = act_create ->
  name p = Some n ->
  n <> EmptyString ->
  calls_of (snd (dispatch octokit zod_message "gh_repo" args r))
  = [repos_createForAuthenticatedUser n (description p)
       (negb (truthy_bool (public p))) true].
Proof.
  intros H Ha Hn Hne. step_handler. rewrite H, Ha, Hn.
  destruct n as [|a rest]; [congruence|]. simpl.
  destruct (api_repos_createForAuthenticatedUser octokit _ _ _ _ r) as [[data|e] r'];
    simpl; [reflexivity|].
  destruct (instanceof_McpError e); reflexivity.
Qed.

(** C2 (amended): a repository invocation whose validated action is
    [clone], [delete] or [fork] fails with [InvalidParams] and the message
    "Unsupported action: <action>", without any outbound call; every
    pull-request and every issue invocation returns its fixed placeholder
    text, without any outbound call. *)
Theorem unimplemented_actions :
  (forall (args : option json) (p : Params) (r : Remote),
      GitHubActionSchema_safeParse args = inr p ->
      action p = act_clone \/ action p = act_delete \/ action p = act_fork ->
      dispatch octokit zod_message "gh_repo" args r
      = (Abrupt (McpError InvalidParams
                   ("Unsupported action: " ++ Action_name (action p))),
         mkWorld r []))
  /\ (forall (args : option json) (r : Remote),
         dispatch octokit zod_message "gh_pr" args r
         = (Normal (text_result "PR action handler not fully implemented yet"),
            mkWorld r []))
  /\ (forall (args : option json) (r : Remote),
         dispatch octokit zod_message "gh_issue" args r
         = (Normal (text_result "Issue action handler not fully implemented yet"),
            mkWorld r [])).
Proof.
  split; [|split].
  - intros args p r H Ha. step_handler. rewrite H.
    destruct Ha as [Ha|[Ha|Ha]]; rewrite Ha; reflexivity.
  - intros; reflexivity.
  - intros; reflexivity.
Qed.

Lemma create_without_name_run
    (fields : list (string * json)) (p : Params) (r : Remote) :
  GitHubActionSchema_safeParse (Some (JObj fields)) = inr p ->
  prop "action" fields = Some (JStr "create") ->
  prop "name" fields = None ->
  dispatch octokit zod_message "gh_repo" (Some (JObj fields)) r
  = (Abrupt (McpError InvalidParams "Repository name is required"), mkWorld r []).
Proof.
  intros H Ha Hn.
  pose proof (parsed_action _ _ H) as Ha'. rewrite Ha in Ha'.
  pose proof (parsed_name_missing _ _ H Hn) as Hn'.
  assert (action p = act_create) as Hc
    by (destruct (action p); simpl in Ha'; congruence).
  step_handler. simpl in H. rewrite H, Hc, Hn'. reflexivity.
Qed.

(** Whatever else the argument object holds, a [create] request without a
    [name] never reaches the collaborator. *)
Lemma create_without_name_no_call (fields : list (string * json)) (r : Remote) :
  prop "action" fields = Some (JStr "create") ->
  prop "name" fields = None ->
  exists code message,
    dispatch octokit zod_message "gh_repo" (Some (JObj fields)) r
    = (Abrupt (McpError code message), mkWorld r []).
Proof.
  intros Ha Hn.
  destruct (GitHubActionSchema_safeParse (Some (JObj fields))) as [issues|p] eqn:E.
  - eexists _, _. apply schema_failure_is_internal_error. exact E.
  - eexists _, _. apply create_without_name_run with (p := p); assumption.
Qed.

(** A repository [create] request that passes the schema and has no
    [name] property fails with [InvalidParams], and its call log is empty:
    the failure comes before any collaborator call. *)
Lemma create_without_name_invalid_params
    (fields : list (string * json)) (p : Params) (r : Remote) :
  GitHubActionSchema_safeParse (Some (JObj fields)) = inr p ->
  prop "action" fields = Some (JStr "create") ->
  prop "name" fields = None ->
  fst (dispatch octokit zod_message "gh_repo" (Some (JObj fields)) r)
  = Abrupt (McpError InvalidParams "Repository name is required")
  /\ length (outbound (snd (dispatch octokit zod_message "gh_repo"
                              (Some (JObj fields)) r))) = 0.
Proof.
  intros H Ha Hn. rewrite (create_without_name_run fields p r H Ha Hn).
  split; reflexivity.
Qed.

(** C6: a call-tool request whose tool name is none of [gh_repo], [gh_pr],
    [gh_issue] fails with [MethodNotFound]; the outcome is the same whatever
    the three handlers are, so none of them is entered, and no outbound
    call is logged. *)
Theorem unknown_tool_method_not_found
    (tool : string) (args : option json) (r : Remote) :
  tool <> "gh_repo" -> tool <> "gh_pr" -> tool <> "gh_issue" ->
  dispatch octokit zod_message tool args r
  = (Abrupt (McpError MethodNotFound ("Unknown tool: " ++ tool)), mkWorld r [])
  /\ forall (onRepo onPR onIssue : option json -> M Remote ToolResult) (w : World Remote),
      callTool_with zod_message onRepo onPR onIssue tool args w
      = (Abrupt (McpError MethodNotFound ("Unknown tool: " ++ tool)), w).
Proof.
  intros H1 H2 H3.
  apply String.eqb_neq in H1, H2, H3.
  split; [|intros onRepo onPR onIssue w]; step_handler; now rewrite H1, H2, H3.
Qed.

(** C9: for every argument value at all, [handlePRAction] and
    [handleIssueAction] complete normally with the same one-text-block
    result and leave the remote state and the call log untouched. *)
Theorem pr_and_issue_handlers_constant (args : option json) (w : World Remote) :
  handlePRAction args w
  = (Normal (mkResult [mkBlock "text" "PR action handler not fully implemented yet"]), w)
  /\ handleIssueAction args w
     = (Normal (mkResult [mkBlock "text" "Issue action handler not fully implemented yet"]), w).
Proof. split; reflexivity. Qed.

(** *** The top-level catch *)

(** The repository tool: the handler's completion, rewrapped by the catch;
    the catch itself makes no call. *)
Lemma dispatch_repo (args : option json) (r : Remote) :
  dispatch octokit zod_message "gh_repo" args r
  = (match fst (handleRepoAction octokit args (mkWorld r [])) with
     | Normal res => Normal res
     | Abrupt e =>
         Abrupt (if instanceof_McpError e then e
                 else McpError InternalError
                        ("GitHub API error: " ++ exn_message zod_message e))
     end,
     snd (handleRepoAction octokit args (mkWorld r []))).
Proof.
  unfold dispatch, callTool, callTool_with, try_catch. simpl.
  destruct (handleRepoAction octokit args (mkWorld r [])) as [[res|e] w']; simpl;
    [reflexivity|].
  destruct (instanceof_McpError e); reflexivity.
Qed.

Ltac split_replies :=
  repeat match goal with
         | |- context [api_repos_listForAuthenticatedUser octokit ?a ?b ?r] =>
             destruct (api_repos_listForAuthenticatedUser octokit a b r) as [[?data|?e] ?r']
         | |- context [api_repos_createForAuthenticatedUser octokit ?a ?b ?c ?d ?r] =>
             destruct (api_repos_createForAuthenticatedUser octokit a b c d r)
               as [[?data|?e] ?r']
         | |- context [api_users_getAuthenticated octokit ?r] =>
             destruct (api_users_getAuthenticated octokit r) as [[?user|?e] ?r']
         | |- context [api_repos_get octokit ?a ?b ?r] =>
             destruct (api_repos_get octokit a b r) as [[?data|?e] ?r']
         | _ => progress simpl
         end.

(** Every way through the repository handler, case by case. *)
Ltac handler_cases args :=
  unfold handleRepoAction, GitHubActionSchema_parse, bind, ret, throw,
    octokit_repos_listForAuthenticatedUser, octokit_repos_createForAuthenticatedUser,
    octokit_users_getAuthenticated, octokit_repos_get, await;
  destruct (GitHubActionSchema_safeParse args) as [issues|p]; simpl;
  [| destruct (action p); simpl;
     try (destruct (name p) as [[|? ?]|]; simpl);
     try match goal with
         | |- context [includes slash ?n] => destruct (includes slash n); simpl
         end;
     split_replies ].

(** The handler does not catch: when one of its calls is rejected, the
    handler completes abruptly with that very exception. *)
Lemma handleRepoAction_raised (args : option json) (r : Remote) (c : Call) (e : exn) :
  In (c, Raised e) (outbound (snd (handleRepoAction octokit args (mkWorld r [])))) ->
  fst (handleRepoAction octokit args (mkWorld r [])) = Abrupt e.
Proof.
  handler_cases args; intros H;
    repeat (destruct H as [H|H]; [try discriminate H|]);
    try contradiction;
    try (injection H as _ <-; reflexivity).
Qed.

(** A normal completion of the repository handler is one text block. *)
Lemma handleRepoAction_text (args : option json) (w w' : World Remote)
    (res : ToolResult) :
  handleRepoAction octokit args w = (Normal res, w') ->
  exists t, res = text_result t.
Proof.
  handler_cases args; intros H; try discriminate H;
    injection H as <- _; eexists; reflexivity.
Qed.

Lemma callTool_text (tool : string) (args : option json) (w w' : World Remote)
    (res : ToolResult) :
  callTool octokit zod_message tool args w = (Normal res, w') ->
  exists t, res = text_result t.
Proof.
  unfold callTool, callTool_with, try_catch.
  destruct (String.eqb tool "gh_repo").
  - destruct (handleRepoAction octokit args w) as [[res0|e] w0] eqn:E.
    + intros H. injection H as <- _. eapply handleRepoAction_text; eassumption.
    + unfold throw. destruct (instanceof_McpError e); discriminate.
  - destruct (String.eqb tool "gh_pr"); [|destruct (String.eqb tool "gh_issue")];
      simpl; intros H; try discriminate H;
      injection H as <- _; eexists; reflexivity.
Qed.

(** C7: when, during a dispatch, a collaborator call raises an exception
    that is not a protocol error, the dispatch fails with an
    [InternalError] whose message ("GitHub API error: " followed by the
    exception's message) contains the exception's message. *)
Theorem collaborator_error_is_internal_error
    (tool : string) (args : option json) (r : Remote) (c : Call) (e : exn) :
  In (c, Raised e) (outbound (snd (dispatch octokit zod_message tool args r))) ->
  instanceof_McpError e = false ->
  exists message,
    fst (dispatch octokit zod_message tool args r)
    = Abrupt (McpError InternalError message)
    /\ message = "GitHub API error: " ++ exn_message zod_message e
    /\ contains message (exn_message zod_message e).
Proof.
  intros Hin Hnot.
  destruct (String.eqb_spec tool "gh_repo") as [->|Hrepo].
  - rewrite dispatch_repo in *. simpl in Hin.
    apply handleRepoAction_raised in Hin. rewrite Hin, Hnot.
    eexists. split; [reflexivity|]. split; [reflexivity|]. apply contains_suffix.
  - exfalso. apply String.eqb_neq in Hrepo.
    unfold dispatch, callTool, callTool_with, try_catch in Hin.
    rewrite Hrepo in Hin.
    destruct (String.eqb tool "gh_pr"); [|destruct (String.eqb tool "gh_issue")];
      simpl in Hin; exact Hin.
Qed.

(** C8: every result returned normally, by the dispatcher and by each of the
    three handlers, has a content sequence of exactly one element, and that
    element has type "text". *)
Theorem every_result_is_one_text_block
    (args : option json) (w w' : World Remote) (res : ToolResult) :
  (exists tool, callTool octokit zod_message tool args w = (Normal res, w'))
  \/ handleRepoAction octokit args w = (Normal res, w')
  \/ handlePRAction args w = (Normal res, w')
  \/ handleIssueAction args w = (Normal res, w') ->
  length (content res) = 1
  /\ Forall (fun block => type block = "text") (content res).
Proof.
  intros H.
  assert (exists t, res = text_result t) as [t ->].
  { destruct H as [[tool H]|[H|[H|H]]].
    - eapply callTool_text; eassumption.
    - eapply handleRepoAction_text; eassumption.
    - injection H as <- _. eexists; reflexivity.
    - injection H as <- _. eexists; reflexivity. }
  split; [reflexivity|]. repeat constructor.
Qed.

(** *** The [view] action *)

(** A qualified name: one repository-get, on the first two segments. *)
Lemma view_qualified_run (args : option json) (p : Params)
    (n owner repo : string) (more : list string) (r : Remote) :
  GitHubActionSchema_safeParse args = inr p ->
  action p = act_view ->
  name p = Some n ->
  split slash n = owner :: repo :: more ->
  handleRepoAction octokit args (mkWorld r [])
  = match api_repos_get octokit owner repo r with
    | (inl data, r') =>
        (Normal (text_result (JSON_stringify (repo_details data))),
         mkWorld r' [(repos_get owner repo, Returned)])
    | (inr e, r') => (Abrupt e, mkWorld r' [(repos_get owner repo, Raised e)])
    end.
Proof.
  intros H Ha Hn Hs.
  assert (includes slash n = true) as Hi.
  { apply includes_occurrences. pose proof (split_length slash n) as L.
    rewrite Hs in L. simpl in L. lia. }
  step_handler. rewrite H, Ha, Hn.
  destruct n as [|a rest]; [discriminate Hi|].
  rewrite Hi, Hs. unfold first_two. simpl.
  destruct (api_repos_get octokit owner repo r) as [[data|e] r']; reflexivity.
Qed.

(** A bare, non-empty name: the identity lookup first, and the
    repository-get only when the lookup answers. *)
Lemma view_bare_run (args : option json) (p : Params) (n : string) (r : Remote) :
  GitHubActionSchema_safeParse args = inr p ->
  action p = act_view ->
  name p = Some n ->
  n <> EmptyString ->
  includes slash n = false ->
  handleRepoAction octokit args (mkWorld r [])
  = match api_users_getAuthenticated octokit r with
    | (inl user, r1) =>
        match api_repos_get octokit (Api.login user) n r1 with
        | (inl data, r2) =>
            (Normal (text_result (JSON_stringify (repo_details data))),
             mkWorld r2 [(users_getAuthenticated, Returned);
                         (repos_get (Api.login user) n, Returned)])
        | (inr e, r2) =>
            (Abrupt e,
             mkWorld r2 [(users_getAuthenticated, Returned);
                         (repos_get (Api.login user) n, Raised e)])
        end
    | (inr e, r1) => (Abrupt e, mkWorld r1 [(users_getAuthenticated, Raised e)])
    end.
Proof.
  intros H Ha Hn Hne Hi.
  step_handler. rewrite H, Ha, Hn.
  destruct n as [|a rest]; [congruence|].
  rewrite Hi. simpl.
  destruct (api_users_getAuthenticated octokit r) as [[user|e] r1]; simpl;
    [|reflexivity].
  destruct (api_repos_get octokit (Api.login user) (String a rest) r1)
    as [[data|e] r2]; reflexivity.
Qed.

(** C5 (amended): for a [view] invocation with a non-empty name: if the
    name includes the separator, exactly one call is made, a repository-get
    on the first two segments, and no identity lookup; otherwise the first
    call is the identity lookup and, when it answers, exactly one more call
    follows, a repository-get with the resolved login as owner and the
    supplied name as repository; when the lookup is rejected it stays the
    only call. *)
Theorem view_calls
    (fields : list (string * json)) (p : Params) (n : string) (r : Remote) :
  GitHubActionSchema_safeParse (Some (JObj fields)) = inr p ->
  prop "action" fields = Some (JStr "view") ->
  prop "name" fields = Some (JStr n) ->
  n <> EmptyString ->
  (includes slash n = true ->
     exists owner repo more,
       split slash n = owner :: repo :: more
       /\ calls_of (snd (dispatch octokit zod_message "gh_repo" (Some (JObj fields)) r))
          = [repos_get owner repo])
  /\ (includes slash n = false ->
        (forall user r',
            api_users_getAuthenticated octokit r = (inl user, r') ->
            calls_of (snd (dispatch octokit zod_message "gh_repo" (Some (JObj fields)) r))
            = [users_getAuthenticated; repos_get (Api.login user) n])
        /\ (forall e r',
               api_users_getAuthenticated octokit r = (inr e, r') ->
               outbound (snd (dispatch octokit zod_message "gh_repo"
                                (Some (JObj fields)) r))
               = [(users_getAuthenticated, Raised e)])).
Proof.
  intros H Ha Hn Hne.
  pose proof (parsed_action_given fields p act_view H Ha) as Ha'.
  pose proof (parsed_name_given fields p n H Hn) as Hn'.
  rewrite dispatch_repo. simpl. split.
  - intros Hi. destruct (split_at_least_two slash n Hi) as (owner & repo & more & Hs).
    exists owner, repo, more. split; [exact Hs|].
    rewrite (view_qualified_run _ p n owner repo more r H Ha' Hn' Hs).
    destruct (api_repos_get octokit owner repo r) as [[data|e] r']; reflexivity.
  - intros Hi. rewrite (view_bare_run _ p n r H Ha' Hn' Hne Hi).
    split.
    + intros user r' E. rewrite E.
      destruct (api_repos_get octokit (Api.login user) n r') as [[data|e] r2];
        reflexivity.
    + intros e r' E. rewrite E. reflexivity.
Qed.

(** C10: for a [view] invocation whose name holds two or more separators,
    the name reads owner, separator, repository, separator, rest, where the
    owner and the repository hold no separator; the single outbound call is
    a repository-get on that owner and that repository, the rest is dropped,
    and when the collaborator answers the handler returns normally. *)
Theorem view_extra_segments_discarded
    (fields : list (string * json)) (p : Params) (n : string) (r : Remote) :
  GitHubActionSchema_safeParse (Some (JObj fields)) = inr p ->
  prop "action" fields = Some (JStr "view") ->
  prop "name" fields = Some (JStr n) ->
  2 <= occurrences slash n ->
  exists owner repo rest,
    n = owner ++ "/" ++ repo ++ "/" ++ rest
    /\ includes slash owner = false
    /\ includes slash repo = false
    /\ calls_of (snd (dispatch octokit zod_message "gh_repo" (Some (JObj fields)) r))
       = [repos_get owner repo]
    /\ forall data r',
         api_repos_get octokit owner repo r = (inl data, r') ->
         fst (dispatch octokit zod_message "gh_repo" (Some (JObj fields)) r)
         = Normal (text_result (JSON_stringify (repo_details data))).
Proof.
  intros H Ha Hn Hocc.
  pose proof (parsed_action_given fields p act_view H Ha) as Ha'.
  pose proof (parsed_name_given fields p n H Hn) as Hn'.
  destruct (split_three slash n Hocc) as (owner & repo & extra & more & Hs).
  exists owner, repo, (join (String slash EmptyString) (extra :: more)).
  pose proof (join_split slash n) as J. rewrite Hs in J.
  pose proof (split_segments_clean slash n) as Hclean. rewrite Hs in Hclean.
  pose proof (Forall_inv Hclean) as Ho.
  pose proof (Forall_inv (Forall_inv_tail Hclean)) as Hr.
  simpl in Ho, Hr.
  split; [symmetry; exact J|].
  split; [exact Ho|]. split; [exact Hr|].
  rewrite dispatch_repo. simpl.
  rewrite (view_qualified_run _ p _ owner repo (extra :: more) r H Ha' Hn' Hs).
  split.
  - destruct (api_repos_get octokit owner repo r) as [[data|e] r']; reflexivity.
  - intros data r' E. rewrite E. reflexivity.
Qed.

(** *** Departures from the declared interface *)

(** When [public] is supplied, [private] is its negation, and [auto_init]
    is sent as [true]. *)
Lemma create_with_public_negates
    (fields : list (string * json)) (p : Params) (n : string) (b : bool) (r : Remote) :
  GitHubActionSchema_safeParse (Some (JObj fields)) = inr p ->
  prop "action" fields = Some (JStr "create") ->
  prop "name" fields = Some (JStr n) ->
  n <> EmptyString ->
  prop "public" fields = Some (JBool b) ->
  calls_of (snd (dispatch octokit zod_message "gh_repo" (Some (JObj fields)) r))
  = [repos_createForAuthenticatedUser n (description p) (negb b) true].
Proof.
  intros H Ha Hn Hne Hp.
  rewrite (create_call_flags _ p n r H
             (parsed_action_given fields p act_create H Ha)
             (parsed_name_given fields p n H Hn) Hne).
  rewrite (parsed_public_given fields p b H Hp). now destruct b.
Qed.

(** C1 (what the code does): a [create] invocation with a non-empty name
    and no [public] property makes one create call with [private = true]
    (and [auto_init = true]); the catalog's default [public = true] is not
    applied by the validator, so the flag is the negation of [undefined]. *)
Theorem create_without_public_is_private
    (fields : list (string * json)) (p : Params) (n : string) (r : Remote) :
  GitHubActionSchema_safeParse (Some (JObj fields)) = inr p ->
  prop "action" fields = Some (JStr "create") ->
  prop "name" fields = Some (JStr n) ->
  n <> EmptyString ->
  prop "public" fields = None ->
  calls_of (snd (dispatch octokit zod_message "gh_repo" (Some (JObj fields)) r))
  = [repos_createForAuthenticatedUser n (description p) true true].
Proof.
  intros H Ha Hn Hne Hp.
  rewrite (create_call_flags _ p n r H
             (parsed_action_given fields p act_create H Ha)
             (parsed_name_given fields p n H Hn) Hne).
  now rewrite (parsed_public_missing fields p H Hp).
Qed.

(** C3 (what the code does): arguments refused by the schema make the
    dispatch fail with [InternalError], not [InvalidParams]: the
    validator's error is not a protocol error, so the top-level catch
    rewraps it.  No outbound call is made. *)
Theorem schema_violation_is_internal_error
    (args : option json) (issues : list ZodIssue) (r : Remote) :
  GitHubActionSchema_safeParse args = inl issues ->
  fst (dispatch octokit zod_message "gh_repo" args r)
  = Abrupt (McpError InternalError ("GitHub API error: " ++ zod_message issues))
  /\ outbound (snd (dispatch octokit zod_message "gh_repo" args r)) = [].
Proof.
  intros H. rewrite (schema_failure_is_internal_error args issues r H).
  split; reflexivity.
Qed.

(** C4 (what the code does): a repository [create] invocation without a
    [name] property never reaches the collaborator, but its error code
    depends on the other properties: when the arguments pass the schema the
    dispatch fails with [InvalidParams] "Repository name is required"; when
    another declared property is ill-typed the validator's error is
    rewrapped and the dispatch fails with [InternalError] instead. *)
Theorem create_without_name_outcome (fields : list (string * json)) (r : Remote) :
  prop "action" fields = Some (JStr "create") ->
  prop "name" fields = None ->
  outbound (snd (dispatch octokit zod_message "gh_repo" (Some (JObj fields)) r)) = []
  /\ ((exists p,
         GitHubActionSchema_safeParse (Some (JObj fields)) = inr p
         /\ fst (dispatch octokit zod_message "gh_repo" (Some (JObj fields)) r)
            = Abrupt (McpError InvalidParams "Repository name is required"))
      \/ (exists issues,
            GitHubActionSchema_safeParse (Some (JObj fields)) = inl issues
            /\ fst (dispatch octokit zod_message "gh_repo" (Some (JObj fields)) r)
               = Abrupt (McpError InternalError
                           ("GitHub API error: " ++ zod_message issues)))).
Proof.
  intros Ha Hn.
  destruct (GitHubActionSchema_safeParse (Some (JObj fields))) as [issues|p] eqn:E.
  - rewrite (schema_failure_is_internal_error _ issues r E).
    split; [reflexivity|]. right. exists issues. split; reflexivity.
  - rewrite (create_without_name_run fields p r E Ha Hn).
    split; [reflexivity|]. left. exists p. split; reflexivity.
Qed.

(** *** Failure discipline of the dispatcher *)

(** The catch clause never completes normally and only throws protocol
    errors. *)
Lemma catch_clause_throws (e : exn) (w : World Remote) :
  exists code message,
    catch_clause zod_message e w = (Abrupt (McpError code message), w).
Proof.
  unfold catch_clause, throw.
  destruct e as [code m|issues|m]; simpl; eexists _, _; reflexivity.
Qed.

Lemma callTool_with_unfold
    (onRepo onPR onIssue : option json -> M Remote ToolResult)
    (tool : string) (args : option json) :
  callTool_with zod_message onRepo onPR onIssue tool args
  = try_catch
      (if String.eqb tool "gh_repo" then onRepo args
       else if String.eqb tool "gh_pr" then onPR args
       else if String.eqb tool "gh_issue" then onIssue args
       else throw (McpError MethodNotFound ("Unknown tool: " ++ tool)))
      (catch_clause zod_message).
Proof. reflexivity. Qed.

(** X1: a dispatch either returns a result or fails with a protocol error;
    no other kind of exception leaves the call-tool handler, whatever the
    three handlers do. *)
Theorem only_protocol_errors_escape
    (onRepo onPR onIssue : option json -> M Remote ToolResult)
    (tool : string) (args : option json) (w : World Remote) :
  (exists res, fst (callTool_with zod_message onRepo onPR onIssue tool args w) = Normal res)
  \/ (exists code message,
        fst (callTool_with zod_message onRepo onPR onIssue tool args w)
        = Abrupt (McpError code message)).
Proof.
  rewrite callTool_with_unfold. unfold try_catch.
  match goal with
  | |- context [match ?m w with _ => _ end] => destruct (m w) as [[res|e] w']
  end.
  - left. now exists res.
  - right. destruct (catch_clause_throws e w') as (code & m & E).
    rewrite E. now exists code, m.
Qed.

(** The log of the repository handler, from an empty log: at most two
    entries, and a rejected call is the last one. *)
Lemma handleRepoAction_log_shape (args : option json) (r : Remote) :
  length (outbound (snd (handleRepoAction octokit args (mkWorld r [])))) <= 2
  /\ forall i c e,
      nth_error (outbound (snd (handleRepoAction octokit args (mkWorld r [])))) i
      = Some (c, Raised e) ->
      length (outbound (snd (handleRepoAction octokit args (mkWorld r [])))) = S i.
Proof.
  handler_cases args; (split; [lia|]); intros i c0 e0 H;
    destruct i as [|[|[|i]]]; simpl in H; try discriminate H; reflexivity.
Qed.

Lemma dispatch_other_tools_log (tool : string) (args : option json) (r : Remote) :
  tool <> "gh_repo" ->
  outbound (snd (dispatch octokit zod_message tool args r)) = [].
Proof.
  intros H. apply String.eqb_neq in H.
  unfold dispatch, callTool, callTool_with, try_catch. rewrite H.
  destruct (String.eqb tool "gh_pr"); [|destruct (String.eqb tool "gh_issue")];
    reflexivity.
Qed.

(** X2: one dispatch makes at most two outbound calls, and none at all
    unless the tool is [gh_repo]. *)
Theorem at_most_two_calls (tool : string) (args : option json) (r : Remote) :
  length (outbound (snd (dispatch octokit zod_message tool args r))) <= 2
  /\ (tool <> "gh_repo" ->
      outbound (snd (dispatch octokit zod_message tool args r)) = []).
Proof.
  split; [|apply dispatch_other_tools_log].
  destruct (String.eqb_spec tool "gh_repo") as [->|H].
  - rewrite dispatch_repo. simpl. apply handleRepoAction_log_shape.
  - rewrite (dispatch_other_tools_log tool args r H). simpl. lia.
Qed.

(** X3: nothing is retried and nothing follows a failure: when the call at
    position [i] of the log was rejected, it is the last call of the
    dispatch. *)
Theorem rejected_call_is_last
    (tool : string) (args : option json) (r : Remote) (i : nat) (c : Call) (e : exn) :
  nth_error (outbound (snd (dispatch octokit zod_message tool args r))) i
  = Some (c, Raised e) ->
  length (outbound (snd (dispatch octokit zod_message tool args r))) = S i.
Proof.
  destruct (String.eqb_spec tool "gh_repo") as [->|H].
  - rewrite dispatch_repo. simpl. apply handleRepoAction_log_shape.
  - rewrite (dispatch_other_tools_log tool args r H).
    destruct i; discriminate.
Qed.

(** A protocol error raised by a collaborator call is not rewrapped: the
    dispatch fails with that very error, code and message unchanged. *)
Lemma collaborator_protocol_error_passes_through
    (tool : string) (args : option json) (r : Remote)
    (c : Call) (code : ErrorCode) (message : string) :
  In (c, Raised (McpError code message))
     (outbound (snd (dispatch octokit zod_message tool args r))) ->
  fst (dispatch octokit zod_message tool args r) = Abrupt (McpError code message).
Proof.
  intros Hin.
  destruct (String.eqb_spec tool "gh_repo") as [->|H].
  - rewrite dispatch_repo in *. simpl in Hin.
    apply handleRepoAction_raised in Hin. now rewrite Hin.
  - rewrite (dispatch_other_tools_log tool args r H) in Hin. contradiction.
Qed.

(** *** The implemented repository actions *)

(** X4: [list] makes exactly one call, for the first page of at most 100
    repositories sorted by update time, whatever else the arguments hold;
    when the call answers, the result is the indented JSON array with one
    summary per repository returned, and no further page is requested. *)
Theorem list_requests_one_page (args : option json) (p : Params) (r : Remote) :
  GitHubActionSchema_safeParse args = inr p ->
  action p = act_list ->
  calls_of (snd (dispatch octokit zod_message "gh_repo" args r))
  = [repos_listForAuthenticatedUser "updated" 100]
  /\ forall data r',
      api_repos_listForAuthenticatedUser octokit "updated" 100 r = (inl data, r') ->
      dispatch octokit zod_message "gh_repo" args r
      = (Normal (text_result (JSON_stringify (JArr (map repo_summary data)))),
         mkWorld r' [(repos_listForAuthenticatedUser "updated" 100, Returned)]).
Proof.
  intros H Ha. step_handler. rewrite H, Ha. simpl.
  destruct (api_repos_listForAuthenticatedUser octokit "updated" 100 r)
    as [[data|e] r0]; simpl.
  - split; [reflexivity|]. intros data' r' E. now injection E as <- <-.
  - split; [destruct (instanceof_McpError e); reflexivity|].
    intros data' r' E. discriminate E.
Qed.

(** X5: a [create] with a non-empty name whose call answers returns the
    sentence "Repository created: " followed by the URL of the reply, after
    exactly that one call; the text contains the URL. *)
Theorem create_reports_url
    (args : option json) (p : Params) (n : string)
    (data : Api.Repository) (r r' : Remote) :
  GitHubActionSchema_safeParse args = inr p ->
  action p = act_create ->
  name p = Some n ->
  n <> EmptyString ->
  api_repos_createForAuthenticatedUser octokit n (description p)
    (negb (truthy_bool (public p))) true r = (inl data, r') ->
  dispatch octokit zod_message "gh_repo" args r
  = (Normal (text_result ("Repository created: " ++ Api.html_url data)),
     mkWorld r' [(repos_createForAuthenticatedUser n (description p)
                    (negb (truthy_bool (public p))) true, Returned)])
  /\ contains ("Repository created: " ++ Api.html_url data) (Api.html_url data).
Proof.
  intros H Ha Hn Hne E. split; [|apply contains_suffix].
  step_handler. rewrite H, Ha, Hn.
  destruct n as [|a rest]; [congruence|]. simpl. now rewrite E.
Qed.

(** [create] and [view] need a name: when the name is missing or is the
    empty string, the dispatch fails with [InvalidParams] and the message
    "Repository name is required", before any call. *)
Lemma name_required_for_create_and_view
    (args : option json) (p : Params) (r : Remote) :
  GitHubActionSchema_safeParse args = inr p ->
  action p = act_create \/ action p = act_view ->
  name p = None \/ name p = Some EmptyString ->
  dispatch octokit zod_message "gh_repo" args r
  = (Abrupt (McpError InvalidParams "Repository name is required"), mkWorld r []).
Proof.
  intros H Ha Hn. step_handler. rewrite H.
  destruct Ha as [Ha|Ha], Hn as [Hn|Hn]; rewrite Ha, Hn; reflexivity.
Qed.

(** X6: the outcome of a [create] depends only on [name], [description] and
    [public]: two requests that agree on those three make the same call and
    complete alike, whatever their [org], [path] and [clone]. *)
Theorem create_uses_three_fields
    (args1 args2 : option json) (p1 p2 : Params) (r : Remote) :
  GitHubActionSchema_safeParse args1 = inr p1 ->
  GitHubActionSchema_safeParse args2 = inr p2 ->
  action p1 = act_create ->
  action p2 = act_create ->
  name p1 = name p2 ->
  description p1 = description p2 ->
  public p1 = public p2 ->
  dispatch octokit zod_message "gh_repo" args1 r
  = dispatch octokit zod_message "gh_repo" args2 r.
Proof.
  intros H1 H2 Ha1 Ha2 Hn Hd Hp. step_handler.
  rewrite H1, H2, Ha1, Ha2, Hn, Hd, Hp. reflexivity.
Qed.

(** X7: the only call that changes the remote account is made by [create]:
    whenever a dispatch logs a create call, the tool is [gh_repo], the
    arguments validate to action [create] with that name, and the call asks
    for auto-initialisation. *)
Theorem only_create_creates
    (tool : string) (args : option json) (r : Remote)
    (n : string) (d : option string) (pv ai : bool) (o : Outcome) :
  In (repos_createForAuthenticatedUser n d pv ai, o)
     (outbound (snd (dispatch octokit zod_message tool args r))) ->
  tool = "gh_repo"
  /\ ai = true
  /\ exists p,
      GitHubActionSchema_safeParse args = inr p
      /\ action p = act_create
      /\ name p = Some n
      /\ description p = d
      /\ pv = negb (truthy_bool (public p)).
Proof.
  intros Hin.
  destruct (String.eqb_spec tool "gh_repo") as [->|H];
    [|rewrite (dispatch_other_tools_log tool args r H) in Hin; contradiction].
  split; [reflexivity|].
  rewrite dispatch_repo in Hin. simpl in Hin. revert Hin.
  unfold handleRepoAction, GitHubActionSchema_parse, bind, ret, throw,
    octokit_repos_listForAuthenticatedUser, octokit_repos_createForAuthenticatedUser,
    octokit_users_getAuthenticated, octokit_repos_get, await.
  destruct (GitHubActionSchema_safeParse args) as [issues|p] eqn:E; simpl;
    [contradiction|].
  destruct (action p) eqn:Ea; simpl;
    try (destruct (name p) as [[|a rest]|] eqn:En; simpl);
    try match goal with
        | |- context [includes slash ?x] => destruct (includes slash x); simpl
        end;
    split_replies; intros Hin;
    repeat (destruct Hin as [Hin|Hin]; [try discriminate Hin|]);
    try contradiction;
    injection Hin as <- <- <- <- _;
    (split; [reflexivity|]); exists p; repeat split; reflexivity || assumption.
Qed.

(** X8: for a [view] of a name that includes the separator, the owner and
    the repository passed to the client never hold a separator themselves;
    and when the name has exactly one separator nothing is lost: the name is
    the owner, the separator and the repository. *)
Theorem view_qualified_segments
    (fields : list (string * json)) (p : Params) (n owner repo : string)
    (o : Outcome) (r : Remote) :
  GitHubActionSchema_safeParse (Some (JObj fields)) = inr p ->
  prop "action" fields = Some (JStr "view") ->
  prop "name" fields = Some (JStr n) ->
  includes slash n = true ->
  In (repos_get owner repo, o)
     (outbound (snd (dispatch octokit zod_message "gh_repo" (Some (JObj fields)) r))) ->
  includes slash owner = false
  /\ includes slash repo = false
  /\ (occurrences slash n = 1 -> n = owner ++ "/" ++ repo).
Proof.
  intros H Ha Hn Hi Hin.
  pose proof (parsed_action_given fields p act_view H Ha) as Ha'.
  pose proof (parsed_name_given fields p n H Hn) as Hn'.
  destruct (split_at_least_two slash n Hi) as (ow & rp & more & Hs).
  rewrite dispatch_repo in Hin. simpl in Hin.
  rewrite (view_qualified_run _ p n ow rp more r H Ha' Hn' Hs) in Hin.
  assert (owner = ow /\ repo = rp) as [-> ->].
  { destruct (api_repos_get octokit ow rp r) as [[data|e] r']; simpl in Hin;
      destruct Hin as [Hin|[]]; injection Hin as <- <- _; split; reflexivity. }
  pose proof (split_segments_clean slash n) as Hclean. rewrite Hs in Hclean.
  inversion Hclean as [|? ? Ho Hrest]; subst.
  inversion Hrest as [|? ? Hr _]; subst.
  split; [exact Ho|]. split; [exact Hr|].
  intros Hone. pose proof (split_length slash n) as L.
  rewrite Hs, Hone in L. simpl in L.
  destruct more as [|x more]; [|discriminate L].
  pose proof (join_split slash n) as J. rewrite Hs in J. simpl in J.
  symmetry. exact J.
Qed.

(** X9: the repository tool reads the seven keys of its schema and no
    other: two argument objects that agree on them are dispatched alike, so
    undeclared properties are silently ignored. *)
Theorem dispatch_reads_declared_keys
    (fields fields' : list (string * json)) (r : Remote) :
  (forall k, In k GitHubActionSchema_keys -> prop k fields = prop k fields') ->
  dispatch octokit zod_message "gh_repo" (Some (JObj fields)) r
  = dispatch octokit zod_message "gh_repo" (Some (JObj fields')) r.
Proof.
  intros H. apply safeParse_declared_keys in H.
  unfold dispatch, callTool, callTool_with, try_catch, handleRepoAction,
    GitHubActionSchema_parse, bind.
  simpl String.eqb. cbv iota. now rewrite H.
Qed.

(** X11: the call-tool handler routes exactly the tools of the catalog: a
    name listed by list-tools goes to the handler of that tool, under the
    catch clause; a name that is not listed gets [MethodNotFound]. *)
Theorem catalog_is_what_dispatch_routes
    (onRepo onPR onIssue : option json -> M Remote ToolResult)
    (tool : string) (args : option json) (w : World Remote) :
  match find_tool tool with
  | Some t =>
      tool_name t = tool
      /\ exists handler,
          In (tool, handler) [("gh_repo", onRepo); ("gh_pr", onPR); ("gh_issue", onIssue)]
          /\ callTool_with zod_message onRepo onPR onIssue tool args w
             = try_catch (handler args) (catch_clause zod_message) w
  | None =>
      ~ In tool (map tool_name tools)
      /\ callTool_with zod_message onRepo onPR onIssue tool args w
         = (Abrupt (McpError MethodNotFound ("Unknown tool: " ++ tool)), w)
  end.
Proof.
  rewrite callTool_with_unfold. unfold find_tool, tools. simpl.
  destruct (String.eqb_spec tool "gh_repo") as [->|H1].
  { split; [reflexivity|]. exists onRepo. split; [left|]; reflexivity. }
  destruct (String.eqb_spec tool "gh_pr") as [->|H2].
  { split; [reflexivity|]. exists onPR. split; [right; left|]; reflexivity. }
  destruct (String.eqb_spec tool "gh_issue") as [->|H3].
  { split; [reflexivity|]. exists onIssue. split; [right; right; left|]; reflexivity. }
  split; [|reflexivity].
  intros [E|[E|[E|[]]]]; congruence.
Qed.

(** X15: the repository tool fails with [InvalidParams] before any call in
    exactly two situations, both after a successful validation: the action is
    [clone], [delete] or [fork] (message "Unsupported action: <action>"), or
    the action is [create] or [view] and the name is missing or empty
    (message "Repository name is required"). *)
Theorem invalid_params_exactly_when
    (args : option json) (r : Remote) (message : string) :
  dispatch octokit zod_message "gh_repo" args r
  = (Abrupt (McpError InvalidParams message), mkWorld r [])
  <-> exists p,
      GitHubActionSchema_safeParse args = inr p
      /\ (((action p = act_clone \/ action p = act_delete \/ action p = act_fork)
           /\ message = "Unsupported action: " ++ Action_name (action p))
          \/ ((action p = act_create \/ action p = act_view)
              /\ (name p = None \/ name p = Some EmptyString)
              /\ message = "Repository name is required")).
Proof.
  split.
  - rewrite dispatch_repo.
    unfold handleRepoAction, GitHubActionSchema_parse, bind, ret, throw,
      octokit_repos_listForAuthenticatedUser, octokit_repos_createForAuthenticatedUser,
      octokit_users_getAuthenticated, octokit_repos_get, await.
    destruct (GitHubActionSchema_safeParse args) as [issues|p] eqn:E; simpl;
      [intros H; discriminate H|].
    destruct (action p) eqn:Ea; simpl;
      try (destruct (name p) as [[|a rest]|] eqn:En; simpl);
      try match goal with
          | |- context [includes slash ?x] => destruct (includes slash x); simpl
          end;
      split_replies; intros H; try discriminate H;
      injection H as <-; exists p; (split; [reflexivity|]);
      rewrite ?Ea; simpl; tauto.
  - intros (p & H & [[Ha ->]|[Ha [Hn ->]]]).
    + step_handler. rewrite H.
      destruct Ha as [Ha|[Ha|Ha]]; rewrite Ha; reflexivity.
    + step_handler. rewrite H.
      destruct Ha as [Ha|Ha], Hn as [Hn|Hn]; rewrite Ha, Hn; reflexivity.
Qed.

End Properties.

(* ------------------------------------------------------------------ *)
(** ** The dispatcher on concrete requests *)


(** [{action: "create", name: "demo"}] against the [octocat] service: the
    repository is created private. *)
Lemma create_without_public_is_private_witness :
  prop "public" [("action", JStr "create"); ("name", JStr "demo")] = None
  /\ calls_of (snd (dispatch octocat zod3_message "gh_repo"
                     (args_of [("action", JStr "create"); ("name", JStr "demo")]) []))
     = [repos_createForAuthenticatedUser "demo" None true true].
Proof.
  split; [reflexivity|].
  apply (create_without_public_is_private (list Api.Repository) octocat zod3_message
           [("action", JStr "create"); ("name", JStr "demo")]
           (mkParams act_create (Some "demo") None None None None None) "demo" []);
    try reflexivity.
  discriminate.
Defined.

(** [{action: "clone", name: "octocat/demo"}] is answered with an error, not
    with a placeholder result. *)
Lemma clone_is_refused_not_stubbed :
  dispatch octocat zod3_message "gh_repo"
    (args_of [("action", JStr "clone"); ("name", JStr "octocat/demo")]) []
  = (Abrupt (McpError InvalidParams "Unsupported action: clone"), mkWorld [] [])
  /\ ~ (exists res w,
          dispatch octocat zod3_message "gh_repo"
            (args_of [("action", JStr "clone"); ("name", JStr "octocat/demo")]) []
          = (Normal res, w)).
Proof.
  split; [reflexivity|].
  intros (res & w & H). discriminate H.
Qed.

Lemma unimplemented_actions_witness :
  dispatch octocat zod3_message "gh_repo" (args_of [("action", JStr "fork")]) []
  = (Abrupt (McpError InvalidParams "Unsupported action: fork"), mkWorld [] []).
Proof.
  apply (proj1 (unimplemented_actions (list Api.Repository) octocat zod3_message)
           (args_of [("action", JStr "fork")])
           (mkParams act_fork None None None None None None) []).
  - reflexivity.
  - right; right; reflexivity.
Defined.

(** [{action: "bogus"}]: the validator's error leaves as an internal error. *)
Lemma schema_violation_is_internal_error_witness :
  GitHubActionSchema_safeParse (args_of [("action", JStr "bogus")])
  = inl [mkIssue (invalid_enum_value "bogus" (map Action_name Action_values)) ["action"]]
  /\ fst (dispatch octocat zod3_message "gh_repo" (args_of [("action", JStr "bogus")]) [])
     = Abrupt (McpError InternalError
                 ("GitHub API error: "
                    ++ zod3_message
                         [mkIssue (invalid_enum_value "bogus" (map Action_name Action_values))
                                  ["action"]]))
  /\ outbound (snd (dispatch octocat zod3_message "gh_repo"
                      (args_of [("action", JStr "bogus")]) [])) = [].
Proof.
  split; [reflexivity|].
  apply (schema_violation_is_internal_error (list Api.Repository) octocat zod3_message
           (args_of [("action", JStr "bogus")])).
  reflexivity.
Defined.

Lemma create_without_name_invalid_params_witness :
  fst (dispatch octocat zod3_message "gh_repo"
         (args_of [("action", JStr "create"); ("public", JBool false)]) [])
  = Abrupt (McpError InvalidParams "Repository name is required")
  /\ length (outbound (snd (dispatch octocat zod3_message "gh_repo"
                              (args_of [("action", JStr "create"); ("public", JBool false)])
                              []))) = 0.
Proof.
  apply (create_without_name_invalid_params (list Api.Repository) octocat zod3_message
           [("action", JStr "create"); ("public", JBool false)]
           (mkParams act_create None None (Some false) None None None) []);
    reflexivity.
Defined.

(** [{action: "view", name: <empty string>}]: the name is supplied and does not include
    the separator, yet no call is made at all. *)
Lemma view_empty_name_makes_no_call :
  includes slash EmptyString = false
  /\ dispatch octocat zod3_message "gh_repo"
       (args_of [("action", JStr "view"); ("name", JStr EmptyString)]) []
     = (Abrupt (McpError InvalidParams "Repository name is required"), mkWorld [] [])
  /\ length (outbound (snd (dispatch octocat zod3_message "gh_repo"
                              (args_of [("action", JStr "view"); ("name", JStr EmptyString)]) [])))
     <> 2.
Proof. repeat split. discriminate. Qed.

(** [{action: "view", name: "repo-only"}] with a client that is offline: the
    identity lookup is the only call. *)
Example view_rejected_lookup_is_only_call :
  outbound (snd (dispatch offline zod3_message "gh_repo"
                   (args_of [("action", JStr "view"); ("name", JStr "repo-only")]) tt))
  = [(users_getAuthenticated, Raised (Error "getaddrinfo ENOTFOUND api.github.com"))].
Proof. reflexivity. Qed.

Lemma view_calls_witness :
  calls_of (snd (dispatch octocat zod3_message "gh_repo"
                   (args_of [("action", JStr "view"); ("name", JStr "repo-only")]) []))
  = [users_getAuthenticated; repos_get "octocat" "repo-only"].
Proof.
  refine (proj1 (proj2 (view_calls (list Api.Repository) octocat zod3_message
                          [("action", JStr "view"); ("name", JStr "repo-only")]
                          (mkParams act_view (Some "repo-only") None None None None None)
                          "repo-only" [] _ _ _ _) _)
                (Api.mkUser "octocat") [] _);
    try reflexivity.
  discriminate.
Defined.

Lemma unknown_tool_method_not_found_witness :
  dispatch octocat zod3_message "nonexistent_tool" (args_of []) []
  = (Abrupt (McpError MethodNotFound "Unknown tool: nonexistent_tool"), mkWorld [] []).
Proof.
  apply (unknown_tool_method_not_found (list Api.Repository) octocat zod3_message
           "nonexistent_tool" (args_of []) []); discriminate.
Defined.

Lemma collaborator_error_is_internal_error_witness :
  exists message,
    fst (dispatch offline zod3_message "gh_repo" (args_of [("action", JStr "list")]) tt)
    = Abrupt (McpError InternalError message)
    /\ message = "GitHub API error: getaddrinfo ENOTFOUND api.github.com"
    /\ contains message "getaddrinfo ENOTFOUND api.github.com".
Proof.
  apply (collaborator_error_is_internal_error unit offline zod3_message
           "gh_repo" (args_of [("action", JStr "list")]) tt
           (repos_listForAuthenticatedUser "updated" 100)
           (Error "getaddrinfo ENOTFOUND api.github.com")).
  - left; reflexivity.
  - reflexivity.
Defined.

Lemma every_result_is_one_text_block_witness :
  length (content (text_result "Repository created: https://github.com/octocat/demo")) = 1
  /\ Forall (fun block => type block = "text")
        (content (text_result "Repository created: https://github.com/octocat/demo")).
Proof.
  apply (every_result_is_one_text_block (list Api.Repository) octocat zod3_message
           (args_of [("action", JStr "create"); ("name", JStr "demo")])
           (mkWorld [] [])
           (snd (dispatch octocat zod3_message "gh_repo"
                   (args_of [("action", JStr "create"); ("name", JStr "demo")]) []))).
  left. exists "gh_repo". reflexivity.
Defined.

Lemma view_extra_segments_discarded_witness :
  2 <= occurrences slash "a/b/c"
  /\ exists owner repo rest,
      "a/b/c" = owner ++ "/" ++ repo ++ "/" ++ rest
      /\ includes slash owner = false
      /\ includes slash repo = false
      /\ calls_of (snd (dispatch octocat zod3_message "gh_repo"
                         (args_of [("action", JStr "view"); ("name", JStr "a/b/c")]) []))
         = [repos_get owner repo]
      /\ forall data r',
           api_repos_get octocat owner repo [] = (inl data, r') ->
           fst (dispatch octocat zod3_message "gh_repo"
                  (args_of [("action", JStr "view"); ("name", JStr "a/b/c")]) [])
           = Normal (text_result (JSON_stringify (repo_details data))).
Proof.
  split; [simpl; lia|].
  apply (view_extra_segments_discarded (list Api.Repository) octocat zod3_message
           [("action", JStr "view"); ("name", JStr "a/b/c")]
           (mkParams act_view (Some "a/b/c") None None None None None) "a/b/c" []);
    try reflexivity.
Defined.

(** The segments actually used for ["a/b/c"]. *)
Example view_three_segments :
  calls_of (snd (dispatch octocat zod3_message "gh_repo"
                   (args_of [("action", JStr "view"); ("name", JStr "a/b/c")]) []))
  = [repos_get "a" "b"].
Proof. reflexivity. Qed.

(** [{name: "demo", public: false}]: one create call, [private: true],
    [auto_init: true], and the URL of the reply in the text. *)
Example create_private_demo :
  dispatch octocat zod3_message "gh_repo"
    (args_of [("action", JStr "create"); ("name", JStr "demo"); ("public", JBool false)]) []
  = (Normal (text_result "Repository created: https://github.com/octocat/demo"),
     mkWorld
       [Api.mkRepository "octocat/demo" None true "https://github.com/octocat/demo"
          None 0 0 0 "2024-01-01T00:00:00Z" "2024-01-01T00:00:00Z" (Some []) "main"]
       [(repos_createForAuthenticatedUser "demo" None true true, Returned)]).
Proof. reflexivity. Qed.

(* ------------------------------------------------------------------ *)
(** ** The catalog against the validator, and start-up *)

(** X12: the action names the catalog advertises for [gh_repo] are exactly
    the ones the validator accepts. *)
Theorem advertised_actions_are_the_accepted_ones (s : string) :
  In s (advertised_enum gh_repo_tool "action")
  <-> exists p, GitHubActionSchema_safeParse (args_of [("action", JStr s)]) = inr p.
Proof.
  split.
  - intros H. simpl in H.
    destruct H as [<-|[<-|[<-|[<-|[<-|[<-|[]]]]]]]; eexists; reflexivity.
  - intros [p H]. apply parsed_action in H. simpl in H. injection H as ->.
    destruct (action p); simpl; tauto.
Qed.

(** X13: every property the catalog advertises for [gh_repo] is a key of
    the validator's schema, and a value of the type the catalog declares for
    it is accepted there. *)
Theorem advertised_properties_are_accepted
    (k : string) (ps : PropertySchema) (v : json) :
  assoc k (properties (inputSchema gh_repo_tool)) = Some ps ->
  k <> "action" ->
  parsedType (Some v) = prop_type ps ->
  In k GitHubActionSchema_keys
  /\ exists p,
      GitHubActionSchema_safeParse (args_of [("action", JStr "list"); (k, v)]) = inr p.
Proof.
  intros Hk Hna Hty. simpl in Hk.
  destruct (String.eqb_spec k "action") as [->|_]; [congruence|].
  destruct (String.eqb_spec k "name") as [->|_];
    [|destruct (String.eqb_spec k "description") as [->|_];
      [|destruct (String.eqb_spec k "public") as [->|_];
        [|destruct (String.eqb_spec k "org") as [->|_];
          [|destruct (String.eqb_spec k "path") as [->|_]; [|discriminate Hk]]]]];
    injection Hk as <-; simpl in Hty;
    (split; [unfold GitHubActionSchema_keys; simpl; tauto|]);
    destruct v; try discriminate Hty; eexists; reflexivity.
Qed.

(** X14: start-up succeeds exactly when [GITHUB_TOKEN] is set to a
    non-empty string; the API client is then given that very token, and
    otherwise the constructor throws the fixed error. *)
Theorem constructor_needs_token (env : string -> option string) :
  (forall setup,
      constructor env = inr setup <->
      (env "GITHUB_TOKEN" = Some (client_auth setup)
       /\ client_auth setup <> EmptyString
       /\ server_name setup = "github-mcp"
       /\ server_version setup = "1.0.0"))
  /\ (forall e,
         constructor env = inl e <->
         (e = Error "GITHUB_TOKEN environment variable is required"
          /\ (env "GITHUB_TOKEN" = None \/ env "GITHUB_TOKEN" = Some EmptyString))).
Proof.
  unfold constructor. split.
  - intros [nm ver auth]. simpl.
    destruct (env "GITHUB_TOKEN") as [[|a rest]|]; split; intros H;
      try discriminate H;
      try (destruct H as (H & Hne & _); congruence).
    + injection H as <- <- <-. repeat split. discriminate.
    + destruct H as (H & _ & -> & ->). now injection H as <-.
  - intros e.
    destruct (env "GITHUB_TOKEN") as [[|a rest]|]; split; intros H.
    + injection H as <-. split; [reflexivity | right; reflexivity].
    + destruct H as [E _]. now rewrite E.
    + discriminate H.
    + destruct H as [_ [H|H]]; discriminate H.
    + injection H as <-. split; [reflexivity | left; reflexivity].
    + destruct H as [E _]. now rewrite E.
Qed.

(* ------------------------------------------------------------------ *)
(** ** Further concrete requests *)

Lemma at_most_two_calls_witness :
  outbound (snd (dispatch octocat zod3_message "gh_pr" (args_of [("action", JStr "merge")]) []))
  = [].
Proof.
  apply (proj2 (at_most_two_calls (list Api.Repository) octocat zod3_message
                  "gh_pr" (args_of [("action", JStr "merge")]) [])).
  discriminate.
Defined.

Lemma rejected_call_is_last_witness :
  length (outbound (snd (dispatch offline zod3_message "gh_repo"
                           (args_of [("action", JStr "view"); ("name", JStr "repo-only")]) tt)))
  = 1.
Proof.
  apply (rejected_call_is_last unit offline zod3_message "gh_repo"
           (args_of [("action", JStr "view"); ("name", JStr "repo-only")]) tt 0
           users_getAuthenticated (Error "getaddrinfo ENOTFOUND api.github.com")).
  reflexivity.
Defined.

Lemma list_requests_one_page_witness :
  calls_of (snd (dispatch octocat zod3_message "gh_repo"
                   (args_of [("action", JStr "list"); ("name", JStr "ignored")])
                   [octocat_repo "octocat" "demo"]))
  = [repos_listForAuthenticatedUser "updated" 100]
  /\ forall data r',
      api_repos_listForAuthenticatedUser octocat "updated" 100
        [octocat_repo "octocat" "demo"] = (inl data, r') ->
      dispatch octocat zod3_message "gh_repo"
        (args_of [("action", JStr "list"); ("name", JStr "ignored")])
        [octocat_repo "octocat" "demo"]
      = (Normal (text_result (JSON_stringify (JArr (map repo_summary data)))),
         mkWorld r' [(repos_listForAuthenticatedUser "updated" 100, Returned)]).
Proof.
  apply (list_requests_one_page (list Api.Repository) octocat zod3_message
           (args_of [("action", JStr "list"); ("name", JStr "ignored")])
           (mkParams act_list (Some "ignored") None None None None None)
           [octocat_repo "octocat" "demo"]);
    reflexivity.
Defined.

Lemma create_reports_url_witness :
  dispatch octocat zod3_message "gh_repo"
    (args_of [("action", JStr "create"); ("name", JStr "demo"); ("public", JBool true)]) []
  = (Normal (text_result ("Repository created: " ++ "https://github.com/octocat/demo")),
     mkWorld
       [Api.mkRepository "octocat/demo" None false "https://github.com/octocat/demo"
          None 0 0 0 "2024-01-01T00:00:00Z" "2024-01-01T00:00:00Z" (Some []) "main"]
       [(repos_createForAuthenticatedUser "demo" None false true, Returned)])
  /\ contains ("Repository created: " ++ "https://github.com/octocat/demo")
       "https://github.com/octocat/demo".
Proof.
  apply (create_reports_url (list Api.Repository) octocat zod3_message
           (args_of [("action", JStr "create"); ("name", JStr "demo"); ("public", JBool true)])
           (mkParams act_create (Some "demo") None (Some true) None None None) "demo"
           (Api.mkRepository "octocat/demo" None false "https://github.com/octocat/demo"
              None 0 0 0 "2024-01-01T00:00:00Z" "2024-01-01T00:00:00Z" (Some []) "main")
           []);
    try reflexivity.
  discriminate.
Defined.

Lemma create_uses_three_fields_witness :
  dispatch octocat zod3_message "gh_repo"
    (args_of [("action", JStr "create"); ("name", JStr "demo"); ("org", JStr "acme");
              ("path", JStr "./demo"); ("clone", JBool true)]) []
  = dispatch octocat zod3_message "gh_repo"
      (args_of [("action", JStr "create"); ("name", JStr "demo")]) [].
Proof.
  apply (create_uses_three_fields (list Api.Repository) octocat zod3_message _ _
           (mkParams act_create (Some "demo") None None (Some true) (Some "./demo")
              (Some "acme"))
           (mkParams act_create (Some "demo") None None None None None));
    reflexivity.
Defined.

Lemma only_create_creates_witness :
  "gh_repo" = "gh_repo"
  /\ true = true
  /\ exists p,
      GitHubActionSchema_safeParse
        (args_of [("action", JStr "create"); ("name", JStr "demo")]) = inr p
      /\ action p = act_create
      /\ name p = Some "demo"
      /\ description p = None
      /\ true = negb (truthy_bool (public p)).
Proof.
  apply (only_create_creates (list Api.Repository) octocat zod3_message "gh_repo"
           (args_of [("action", JStr "create"); ("name", JStr "demo")]) []
           "demo" None true true Returned).
  left; reflexivity.
Defined.

Lemma view_qualified_segments_witness :
  includes slash "octocat" = false
  /\ includes slash "demo" = false
  /\ (occurrences slash "octocat/demo" = 1 -> "octocat/demo" = "octocat" ++ "/" ++ "demo").
Proof.
  apply (view_qualified_segments (list Api.Repository) octocat zod3_message
           [("action", JStr "view"); ("name", JStr "octocat/demo")]
           (mkParams act_view (Some "octocat/demo") None None None None None)
           "octocat/demo" "octocat" "demo" Returned []);
    try reflexivity.
  left; reflexivity.
Defined.

Lemma dispatch_reads_declared_keys_witness :
  dispatch octocat zod3_message "gh_repo"
    (Some (JObj [("verbose", JBool true); ("action", JStr "view");
                 ("name", JStr "octocat/demo")])) []
  = dispatch octocat zod3_message "gh_repo"
      (Some (JObj [("action", JStr "view"); ("name", JStr "octocat/demo");
                   ("private", JNull)])) [].
Proof.
  apply (dispatch_reads_declared_keys (list Api.Repository) octocat zod3_message).
  intros k Hk. unfold GitHubActionSchema_keys in Hk. simpl in Hk.
  destruct Hk as [<-|[<-|[<-|[<-|[<-|[<-|[<-|[]]]]]]]]; reflexivity.
Defined.

Lemma validator_accepts_exactly_witness :
  exists p,
    GitHubActionSchema_safeParse
      (args_of [("action", JStr "fork"); ("name", JStr "octocat/demo"); ("clone", JBool true)])
    = inr p.
Proof.
  apply (proj2 (validator_accepts_exactly _)).
  exists [("action", JStr "fork"); ("name", JStr "octocat/demo"); ("clone", JBool true)].
  split; [reflexivity|].
  split; [exists act_fork; reflexivity|].
  repeat split.
Defined.

(** An explicit [null] for an optional field is refused. *)
Example validator_refuses_null :
  ~ exists p,
      GitHubActionSchema_safeParse (args_of [("action", JStr "list"); ("org", JNull)])
      = inr p.
Proof. intros [p H]. discriminate H. Qed.

Lemma advertised_actions_are_the_accepted_ones_witness :
  In "delete" (advertised_enum gh_repo_tool "action").
Proof.
  apply (proj2 (advertised_actions_are_the_accepted_ones "delete")).
  eexists. reflexivity.
Defined.

Lemma advertised_properties_are_accepted_witness :
  In "public" GitHubActionSchema_keys
  /\ exists p,
      GitHubActionSchema_safeParse
        (args_of [("action", JStr "list"); ("public", JBool false)]) = inr p.
Proof.
  apply (advertised_properties_are_accepted "public"
           (mkProperty "boolean" None None (Some "Make repository public")
              (Some (JBool true)))
           (JBool false)).
  - reflexivity.
  - discriminate.
  - reflexivity.
Defined.

Lemma constructor_needs_token_witness :
  constructor (fun k => if String.eqb k "GITHUB_TOKEN" then Some EmptyString else None)
  = inl (Error "GITHUB_TOKEN environment variable is required").
Proof.
  apply (proj2 (proj2 (constructor_needs_token
                         (fun k => if String.eqb k "GITHUB_TOKEN"
                                   then Some EmptyString else None)) _)).
  split; [reflexivity | right; reflexivity].
Defined.

Lemma invalid_params_exactly_when_witness :
  dispatch octocat zod3_message "gh_repo"
    (args_of [("action", JStr "view"); ("description", JStr "no name")]) []
  = (Abrupt (McpError InvalidParams "Repository name is required"), mkWorld [] []).
Proof.
  apply (proj2 (invalid_params_exactly_when (list Api.Repository) octocat zod3_message
                  _ [] _)).
  exists (mkParams act_view None (Some "no name") None None None None).
  split; [reflexivity|]. right.
  split; [right; reflexivity|]. split; [left; reflexivity | reflexivity].
Defined.

(** [{action: "create", public: "yes"}]: no name, an ill-typed [public]; the
    dispatch fails with an internal error and makes no call. *)
Lemma create_without_name_outcome_witness :
  outbound (snd (dispatch octocat zod3_message "gh_repo"
                   (args_of [("action", JStr "create"); ("public", JStr "yes")]) []))
  = []
  /\ ((exists p,
         GitHubActionSchema_safeParse
           (args_of [("action", JStr "create"); ("public", JStr "yes")]) = inr p
         /\ fst (dispatch octocat zod3_message "gh_repo"
                   (args_of [("action", JStr "create"); ("public", JStr "yes")]) [])
            = Abrupt (McpError InvalidParams "Repository name is required"))
      \/ (exists issues,
            GitHubActionSchema_safeParse
              (args_of [("action", JStr "create"); ("public", JStr "yes")]) = inl issues
            /\ fst (dispatch octocat zod3_message "gh_repo"
                      (args_of [("action", JStr "create"); ("public", JStr "yes")]) [])
               = Abrupt (McpError InternalError
                           ("GitHub API error: " ++ zod3_message issues)))).
Proof.
  apply (create_without_name_outcome (list Api.Repository) octocat zod3_message
           [("action", JStr "create"); ("public", JStr "yes")] []);
    reflexivity.
Defined.

Example create_without_name_ill_typed_public :
  dispatch octocat zod3_message "gh_repo"
    (args_of [("action", JStr "create"); ("public", JStr "yes")]) []
  = (Abrupt (McpError InternalError
               ("GitHub API error: "
                  ++ zod3_message [mkIssue (invalid_type "boolean" "string") ["public"]])),
     mkWorld [] []).
Proof. reflexivity. Qed.
